(** * Bill-Manager: the Node.js server (server.js) and the add form of the
      React client (App.jsx), embedded over a model of the [bills] table.

    The handlers of [server.js] are translated one by one.  Each of them reads
    fields of [req.body], picks an SQL statement, hands it with its parameter
    list to [pool.query], and answers from the callback.  The PostgreSQL side is
    modelled as far as these handlers need it: one table keyed by [billid],
    the sequence [bills_billid_seq] of the DDL file, and the conversion of the
    text parameters into the types of the columns.  The two routes that only
    read, GET /bills and GET /bills/amountPaid/:billId, are left out. *)

From Stdlib Require Import ZArith String Ascii List Bool Lia Floats DecimalString.
From stdpp Require Import base option gmap strings fin_maps sorting.

Local Open Scope string_scope.
Local Open Scope Z_scope.

(** ** JavaScript values

    The values a parsed request body (JSON or urlencoded) puts in the fields
    the handlers read: a missing key reads as [undefined].  Numbers are IEEE
    binary64, the kernel's primitive floats.  Nested objects and arrays in
    these fields are outside the model.  A string is a sequence of code units
    below 256. *)

Inductive value : Type :=
| JUndefined
| JNull
| JBool (b : bool)
| JNum (x : float)
| JStr (s : string).

(** [req.body] and the client's [billData] are plain objects. *)
Abbreviation object := (gmap string value).

(** Property read, as in [const {amountDue, ...} = req.body]. *)
Definition field (o : object) (k : string) : value :=
  match o !! k with
  | Some v => v
  | None => JUndefined
  end.

Module JS.

Definition zero : float := PrimFloat.zero.
Definition one : float := PrimFloat.one.
Definition nan : float := PrimFloat.nan.
Definition neg_zero : float := PrimFloat.neg_zero.

(** The Number nearest to a mathematical integer (round to nearest, ties to
    even), written 𝔽(n) in ECMA-262. *)
Definition of_Z (n : Z) : float :=
  SF2Prim (binary_normalize prec emax n 0 false).

(** The mathematical value of a Number when it is an integer. *)
Definition to_Z (x : float) : option Z :=
  match Prim2SF x with
  | S754_zero _ => Some 0
  | S754_finite s m e =>
      let mag :=
        if 0 <=? e then Some (Z.pos m * 2 ^ e)
        else if Z.pos m mod 2 ^ (- e) =? 0 then Some (Z.pos m / 2 ^ (- e))
        else None in
      match mag with
      | Some z => Some (if s then - z else z)
      | None => None
      end
  | S754_infinity _ | S754_nan => None
  end.

Definition is_nan (x : float) : bool := negb (PrimFloat.eqb x x).

(** ToBoolean. *)
Definition truthy (v : value) : bool :=
  match v with
  | JUndefined | JNull => false
  | JBool b => b
  | JNum x => negb (PrimFloat.eqb x zero || is_nan x)
  | JStr s => negb (String.eqb s "")
  end.

Definition bool_number (b : bool) : float := if b then one else zero.

Section Coercions.
(** StringToNumber of ECMA-262 is taken as given. *)
Variable StringToNumber : string -> float.

(** ToNumber. *)
Definition ToNumber (v : value) : float :=
  match v with
  | JUndefined => nan
  | JNull => zero
  | JBool b => bool_number b
  | JNum x => x
  | JStr s => StringToNumber s
  end.

(** [a == b] (IsLooselyEqual) on the modelled values. *)
Definition loose_eq (a b : value) : bool :=
  match a, b with
  | JUndefined, (JUndefined | JNull) => true
  | JNull, (JUndefined | JNull) => true
  | JNum x, JNum y => PrimFloat.eqb x y
  | JStr s, JStr t => String.eqb s t
  | JBool p, JBool q => Bool.eqb p q
  | JNum x, JStr t => PrimFloat.eqb x (StringToNumber t)
  | JStr s, JNum y => PrimFloat.eqb (StringToNumber s) y
  | JBool p, JNum y => PrimFloat.eqb (bool_number p) y
  | JNum x, JBool q => PrimFloat.eqb x (bool_number q)
  | JBool p, JStr t => PrimFloat.eqb (bool_number p) (StringToNumber t)
  | JStr s, JBool q => PrimFloat.eqb (StringToNumber s) (bool_number q)
  | _, _ => false
  end.

(** [a > y] for a Number [y] on the right: both sides go through
    ToNumber, and a comparison with NaN is false. *)
Definition gt (a : value) (y : float) : bool :=
  PrimFloat.ltb y (ToNumber a).
End Coercions.

(** *** parseInt(string) with no radix *)

Definition is_space (c : ascii) : bool :=
  let n := N_of_ascii c in
  ((9 <=? n) && (n <=? 13) || (n =? 32) || (n =? 160))%N.

Fixpoint trim_start (s : string) : string :=
  match s with
  | String c s' => if is_space c then trim_start s' else s
  | EmptyString => s
  end.

Definition digit_value (radix : Z) (c : ascii) : option Z :=
  let n := Z.of_N (N_of_ascii c) in
  let d :=
    if (48 <=? n) && (n <=? 57) then Some (n - 48)
    else if (97 <=? n) && (n <=? 122) then Some (n - 87)
    else if (65 <=? n) && (n <=? 90) then Some (n - 55)
    else None in
  match d with
  | Some k => if k <? radix then Some k else None
  | None => None
  end.

(** The longest prefix of radix digits, read as an integer; [acc] is [None]
    until a digit has been seen.  The integer is exact: ECMA-262 lets an
    implementation drop digits after the twentieth, which only concerns values
    far outside the range of [billid]. *)
Fixpoint digits_prefix (radix : Z) (s : string) (acc : option Z) : option Z :=
  match s with
  | String c s' =>
      match digit_value radix c with
      | Some d =>
          digits_prefix radix s'
            (Some (radix * match acc with Some a => a | None => 0 end + d))
      | None => acc
      end
  | EmptyString => acc
  end.

Definition strip_sign (s : string) : bool * string :=
  match s with
  | String "-" r => (true, r)
  | String "+" r => (false, r)
  | _ => (false, s)
  end.

Definition strip_hex_prefix (s : string) : Z * string :=
  match s with
  | String "0" (String "x" r) => (16, r)
  | String "0" (String "X" r) => (16, r)
  | _ => (10, s)
  end.

Definition parseInt (s : string) : float :=
  let (negative, s1) := strip_sign (trim_start s) in
  let (radix, s2) := strip_hex_prefix s1 in
  match digits_prefix radix s2 None with
  | None => nan
  | Some 0 => if negative then neg_zero else zero
  | Some m => of_Z (if negative then - m else m)
  end.

End JS.

(** ** The [bills] table *)

Record date : Type := mkDate { year : Z; month : Z; day : Z }.

(** Modelled from the spec: the table definition
    (db-ddl/bills-table-definition.sql) is not among the sources.  The columns
    and their types are those of section 3 of the specification, the same the
    README lists for the table: an integer [billid] as primary key, filled
    from the sequence [bills_billid_seq], character varying, double precision,
    date and boolean columns.  The README adds a bill from the four initial
    fields alone, so the other columns accept NULL ([None]); no further
    constraint is assumed. *)
Record bill : Type := mkBill {
  billid : Z;
  billfrom : option string;
  billType : option string;
  amountDue : option float;
  dueDate : option date;
  isPaid : option bool;
  paidInFull : option bool;
  amountPaid : option float;
  datePaid : option date;
  paidBy : option string
}.

(** [billid_seq] is the value the next [nextval('bills_billid_seq')] returns:
    START 1, INCREMENT 1, MAXVALUE 2000000. *)
Record store : Type := mkStore {
  bills : gmap Z bill;
  billid_seq : Z
}.

Definition empty_store : store := mkStore ∅ 1.
Definition seq_maxvalue : Z := 2000000.

Inductive pg_error : Type :=
| NullQuery                  (* pg: "Client was passed a null or undefined query" *)
| BindMismatch               (* wrong number of parameters for the statement *)
| InvalidText (column : string) (* the column type refuses the parameter text *)
| SequenceLimit              (* nextval: reached maximum value of sequence *)
| UniqueViolation.           (* duplicate key on the primary key *)

(** The statements of [server.js] that the model runs.  The two UPDATEs carry
    the literals the chosen SQL text writes into "isPaid" and "paidInFull". *)
Inductive statement : Type :=
| SelectOne
| InsertBill
| UpdatePayment (is_paid paid_in_full : bool)
| UpdateAll (is_paid paid_in_full : bool)
| DeleteBill.

Inductive query_result : Type :=
| QError (err : pg_error)
| QRows (rows : list bill).

(** The functions on text that are taken as given: JavaScript's conversions
    between strings and Numbers, and PostgreSQL's input functions of the
    column types. *)
Record text_io : Type := mkTextIO {
  StringToNumber : string -> float;
  NumberToString : float -> string;
  int4in : string -> option Z;
  float8in : string -> option float;
  boolin : string -> option bool;
  date_in : string -> option date
}.

Definition int4_min : Z := -2147483648.
Definition int4_max : Z := 2147483647.

(** Number::toString followed by int4in: the decimal text of a Number is
    accepted exactly when the Number is an integer in the int4 range (the text
    of a fraction, of NaN, of an infinity or of 1e21 and above is refused). *)
Definition float_to_int4 (x : float) : option Z :=
  match JS.to_Z x with
  | Some n => if (int4_min <=? n) && (n <=? int4_max) then Some n else None
  | None => None
  end.

(** Number::toString followed by float8in gives the Number back, except that
    the text of -0 is "0". *)
Definition float_to_float8 (x : float) : float :=
  if PrimFloat.eqb x JS.zero then JS.zero else x.

(** PostgreSQL refuses a text parameter that holds the code unit 0 (invalid
    byte sequence, error 22021); every other text is a character varying
    value. *)
Fixpoint has_nul (s : string) : bool :=
  match s with
  | String c s' => (N_of_ascii c =? 0)%N || has_nul s'
  | EmptyString => false
  end.

Definition varchar_in (t : string) : option string :=
  if has_nul t then None else Some t.

Definition bind_res {A B : Type} (r : pg_error + A) (k : A -> pg_error + B)
  : pg_error + B :=
  match r with
  | inl e => inl e
  | inr a => k a
  end.

Notation "'let*' x ':=' r 'in' k" := (bind_res r (fun x => k))
  (at level 10, x name, r at level 100, k at level 200, only parsing).

Section Server.
Variable T : text_io.

(** What the pg client sends for a parameter: NULL for [null] and
    [undefined], otherwise text. *)
Definition prepareValue (v : value) : option string :=
  match v with
  | JUndefined | JNull => None
  | JBool b => Some (if b then "true" else "false")
  | JNum x => Some (NumberToString T x)
  | JStr s => Some s
  end.

Definition column_in {A : Type} (input : string -> option A) (column : string)
    (v : value) : pg_error + option A :=
  match prepareValue v with
  | None => inr None
  | Some t =>
      match input t with
      | Some a => inr (Some a)
      | None => inl (InvalidText column)
      end
  end.

Definition varchar_column := column_in varchar_in.
Definition date_column := column_in (date_in T).

(** A JavaScript boolean is sent as "true" or "false", which the boolean
    column reads back as the same boolean; a Number sent to a double
    precision or integer column is read back as said at [float_to_float8]
    and [float_to_int4].  Every other value goes through its text. *)
Definition bool_column (column : string) (v : value) : pg_error + option bool :=
  match v with
  | JBool b => inr (Some b)
  | _ => column_in (boolin T) column v
  end.

Definition float8_column (column : string) (v : value) : pg_error + option float :=
  match v with
  | JNum x => inr (Some (float_to_float8 x))
  | _ => column_in (float8in T) column v
  end.

Definition int4_column (column : string) (v : value) : pg_error + option Z :=
  match v with
  | JNum x =>
      match float_to_int4 x with
      | Some n => inr (Some n)
      | None => inl (InvalidText column)
      end
  | _ => column_in (int4in T) column v
  end.

(** INSERT INTO bills(billfrom,"billType",...,"paidBy") VALUES($1,...,$9)
    RETURNING * *)
Definition insert_bill (params : list value) (st : store) : query_result * store :=
  match params with
  | [p1; p2; p3; p4; p5; p6; p7; p8; p9] =>
      let row :=
        let* c1 := varchar_column "billfrom" p1 in
        let* c2 := varchar_column "billType" p2 in
        let* c3 := float8_column "amountDue" p3 in
        let* c4 := date_column "dueDate" p4 in
        let* c5 := bool_column "isPaid" p5 in
        let* c6 := bool_column "paidInFull" p6 in
        let* c7 := float8_column "amountPaid" p7 in
        let* c8 := date_column "datePaid" p8 in
        let* c9 := varchar_column "paidBy" p9 in
        inr (fun n => mkBill n c1 c2 c3 c4 c5 c6 c7 c8 c9) in
      match row with
      | inl e => (QError e, st)
      | inr mk =>
          let n := billid_seq st in
          if seq_maxvalue <? n then (QError SequenceLimit, st)
          else
            match bills st !! n with
            | Some _ => (QError UniqueViolation, mkStore (bills st) (n + 1))
            | None =>
                (QRows [mk n], mkStore (<[n := mk n]> (bills st)) (n + 1))
            end
      end
  | _ => (QError BindMismatch, st)
  end.

Definition where_billid (id : option Z) (f : bill -> bill) (st : store) : store :=
  match id with
  | Some n => mkStore (alter f n (bills st)) (billid_seq st)
  | None => st
  end.

(** UPDATE bills SET "isPaid"=..,"paidInFull"=..,"amountPaid"=$1,
    "datePaid"=$2,"paidBy"=$3 WHERE billid=$4 *)
Definition update_payment (is_paid paid_in_full : bool) (params : list value)
    (st : store) : query_result * store :=
  match params with
  | [p1; p2; p3; p4] =>
      let set :=
        let* c1 := float8_column "amountPaid" p1 in
        let* c2 := date_column "datePaid" p2 in
        let* c3 := varchar_column "paidBy" p3 in
        let* id := int4_column "billid" p4 in
        inr (id, fun r : bill =>
              mkBill (billid r) (billfrom r) (billType r) (amountDue r)
                (dueDate r) (Some is_paid) (Some paid_in_full) c1 c2 c3) in
      match set with
      | inl e => (QError e, st)
      | inr (id, f) => (QRows [], where_billid id f st)
      end
  | _ => (QError BindMismatch, st)
  end.

(** UPDATE bills SET billfrom=$1,"billType"=$2,"amountDue"=$3,"dueDate"=$4,
    "isPaid"=..,"paidInFull"=..,"amountPaid"=$5,"datePaid"=$6,"paidBy"=$7
    WHERE billid=$8 *)
Definition update_all (is_paid paid_in_full : bool) (params : list value)
    (st : store) : query_result * store :=
  match params with
  | [p1; p2; p3; p4; p5; p6; p7; p8] =>
      let set :=
        let* c1 := varchar_column "billfrom" p1 in
        let* c2 := varchar_column "billType" p2 in
        let* c3 := float8_column "amountDue" p3 in
        let* c4 := date_column "dueDate" p4 in
        let* c5 := float8_column "amountPaid" p5 in
        let* c6 := date_column "datePaid" p6 in
        let* c7 := varchar_column "paidBy" p7 in
        let* id := int4_column "billid" p8 in
        inr (id, fun r : bill =>
              mkBill (billid r) c1 c2 c3 c4 (Some is_paid) (Some paid_in_full)
                c5 c6 c7) in
      match set with
      | inl e => (QError e, st)
      | inr (id, f) => (QRows [], where_billid id f st)
      end
  | _ => (QError BindMismatch, st)
  end.

(** select ... from bills WHERE billid=$1 *)
Definition select_one (params : list value) (st : store) : query_result * store :=
  match params with
  | [p1] =>
      match int4_column "billid" p1 with
      | inl e => (QError e, st)
      | inr None => (QRows [], st)
      | inr (Some n) =>
          (QRows match bills st !! n with Some r => [r] | None => [] end, st)
      end
  | _ => (QError BindMismatch, st)
  end.

(** DELETE FROM bills WHERE billid=$1 *)
Definition delete_bill (params : list value) (st : store) : query_result * store :=
  match params with
  | [p1] =>
      match int4_column "billid" p1 with
      | inl e => (QError e, st)
      | inr None => (QRows [], st)
      | inr (Some n) => (QRows [], mkStore (delete n (bills st)) (billid_seq st))
      end
  | _ => (QError BindMismatch, st)
  end.

(** [pool.query(sql, params, callback)]: the callback's [(err, result)] and
    the table afterwards.  A null [sql] is refused by the client library
    before anything is sent. *)
Definition pool_query (sql : option statement) (params : list value)
    (st : store) : query_result * store :=
  match sql with
  | None => (QError NullQuery, st)
  | Some SelectOne => select_one params st
  | Some InsertBill => insert_bill params st
  | Some (UpdatePayment a b) => update_payment a b params st
  | Some (UpdateAll a b) => update_all a b params st
  | Some DeleteBill => delete_bill params st
  end.

(** *** The handlers of server.js *)

Inductive confirmation : Type :=
| PaymentUpdated   (* "The bills table has been updated successfully for payment of the billId: .." *)
| BillUpdated      (* "The bills table has been updated successfully for the billId: .." *)
| BillDeleted.     (* "Successfully deleted the bill with the billId: .." *)

Inductive reply : Type :=
| Json (status : Z) (row : option bill)   (* res.status(..).json(result.rows[0]) *)
| JsonError (err : pg_error)              (* res.json(err) *)
| Text (status : Z) (msg : confirmation) (billNum : float). (* res.status(..).send(..) *)

(** app.get("/bills/:billId") *)
Definition getbill (billId : string) (st : store) : reply * store :=
  let billNum := StringToNumber T billId in
  let sql := Some SelectOne in
  let (result, st') := pool_query sql [JNum billNum] st in
  match result with
  | QError err => (JsonError err, st')
  | QRows rows => (Json 200 (head rows), st')
  end.

(** app.post("/addbill") *)
Definition addbill (body : object) (st : store) : reply * store :=
  let billfrom := field body "billfrom" in
  let billType := field body "billType" in
  let amountDue := field body "amountDue" in
  let dueDate := field body "dueDate" in
  let isPaid := field body "isPaid" in
  let paidInFull := field body "paidInFull" in
  let amountPaid := field body "amountPaid" in
  let datePaid := field body "datePaid" in
  let paidBy := field body "paidBy" in
  let sql := Some InsertBill in
  let (result, st') :=
    pool_query sql
      [billfrom; billType; amountDue; dueDate; isPaid; paidInFull;
       amountPaid; datePaid; paidBy] st in
  match result with
  | QError err => (JsonError err, st')
  | QRows rows => (Json 201 (head rows), st')
  end.

(** The if / else-if of the paybill handler; [None] is [sql] left null. *)
Definition paybill_sql (amountPaid amountDue : value) : option statement :=
  if JS.loose_eq (StringToNumber T) amountPaid amountDue
     && JS.gt (StringToNumber T) amountPaid JS.zero
  then Some (UpdatePayment true true)
  else if JS.gt (StringToNumber T) amountPaid JS.zero
  then Some (UpdatePayment true false)
  else None.

(** app.patch("/paybill/:billId") *)
Definition paybill (billId : string) (body : object) (st : store) : reply * store :=
  let billNum := JS.parseInt billId in
  let amountDue := field body "amountDue" in
  let amountPaid := field body "amountPaid" in
  let datePaid := field body "datePaid" in
  let paidBy := field body "paidBy" in
  let sql := paybill_sql amountPaid amountDue in
  let (result, st') :=
    pool_query sql [amountPaid; datePaid; paidBy; JNum billNum] st in
  match result with
  | QError err => (JsonError err, st')
  | QRows _ => (Text 200 PaymentUpdated billNum, st')
  end.

(** The if / else-if / else of the updatebill handler. *)
Definition updatebill_sql (amountPaid amountDue : value) : option statement :=
  if JS.loose_eq (StringToNumber T) amountPaid amountDue
  then Some (UpdateAll true true)
  else if JS.gt (StringToNumber T) amountPaid JS.zero
  then Some (UpdateAll true false)
  else Some (UpdateAll false false).

(** app.patch("/updatebill/:billId") *)
Definition updatebill (billId : string) (body : object) (st : store) : reply * store :=
  let billNum := JS.parseInt billId in
  let billfrom := field body "billfrom" in
  let billType := field body "billType" in
  let amountDue := field body "amountDue" in
  let dueDate := field body "dueDate" in
  let amountPaid := field body "amountPaid" in
  let datePaid := field body "datePaid" in
  let paidBy := field body "paidBy" in
  let sql := updatebill_sql amountPaid amountDue in
  let (result, st') :=
    pool_query sql
      [billfrom; billType; amountDue; dueDate; amountPaid; datePaid; paidBy;
       JNum billNum] st in
  match result with
  | QError err => (JsonError err, st')
  | QRows _ => (Text 200 BillUpdated billNum, st')
  end.

(** app.delete("/bills/:billId") *)
Definition deletebill (billId : string) (st : store) : reply * store :=
  let billNum := JS.parseInt billId in
  let sql := Some DeleteBill in
  let (result, st') := pool_query sql [JNum billNum] st in
  match result with
  | QError err => (JsonError err, st')
  | QRows _ => (Text 200 BillDeleted billNum, st')
  end.

End Server.

(** ** Requests and runs of the server *)

Inductive request : Type :=
| Get (billId : string)
| Add (body : object)
| Pay (billId : string) (body : object)
| Update (billId : string) (body : object)
| Delete (billId : string).

Definition handle (T : text_io) (rq : request) (st : store) : reply * store :=
  match rq with
  | Get billId => getbill T billId st
  | Add body => addbill T body st
  | Pay billId body => paybill T billId body st
  | Update billId body => updatebill T billId body st
  | Delete billId => deletebill T billId st
  end.

(** The table after a sequence of requests, served one after the other. *)
Definition run (T : text_io) (rqs : list request) (st : store) : store :=
  fold_left (fun s rq => snd (handle T rq s)) rqs st.

(** ** The add form of the client (App.jsx) *)

Module Client.

(** The part of the component's state that the add form uses; the bill list,
    its filter and the pay and update dialogs are left out. *)
Record ui : Type := mkUi {
  billData : object;
  errorMsg : string;
  isAddModalOpen : bool
}.

(** The object every [setBillData({...})] reset installs. *)
Definition blank_billData : object :=
  list_to_map
    [("billfrom", JStr ""); ("billType", JStr ""); ("amountDue", JNum JS.zero);
     ("dueDate", JStr ""); ("isPaid", JBool false); ("paidInFull", JBool false);
     ("amountPaid", JNum JS.zero); ("datePaid", JStr "9999-01-01");
     ("paidBy", JStr "")].

Definition add_required_msg : string :=
  "The Bill From, Bill Type, Amount Due, and Due Date fields are required at the time of bill entry!".

(** [setBillData({...billData,[e.target.name]:e.target.value})]: the value
    of an input element is a string. *)
Definition handleChange (name text : string) (u : ui) : ui :=
  mkUi (<[name := JStr text]> (billData u)) (errorMsg u) (isAddModalOpen u).

Definition openPopup (u : ui) : ui :=
  mkUi (billData u) (errorMsg u) true.

Definition handleClose (u : ui) : ui :=
  mkUi blank_billData "" false.

Definition is_finite (x : float) : bool :=
  PrimFloat.ltb (PrimFloat.abs x) PrimFloat.infinity.

(** What a value becomes on its way through JSON.stringify and the
    server's JSON body parser: an undefined property is left out, NaN and
    the infinities become null, -0 becomes 0. *)
Definition json_value (v : value) : option value :=
  match v with
  | JUndefined => None
  | JNum x =>
      Some (if is_finite x
            then JNum (if PrimFloat.eqb x JS.zero then JS.zero else x)
            else JNull)
  | _ => Some v
  end.

Definition json_body (o : object) : object := omap json_value o.

(** [handleSubmit]: the new client state, the table afterwards, and the
    server's reply when the POST was sent. *)
Definition handleSubmit (T : text_io) (u : ui) (st : store)
  : ui * store * option reply :=
  let errMsg :=
    if negb (JS.truthy (field (billData u) "billfrom"))
       || negb (JS.truthy (field (billData u) "billType"))
       || negb (JS.truthy (field (billData u) "amountDue"))
       || negb (JS.truthy (field (billData u) "dueDate"))
    then add_required_msg else "" in
  let u1 :=
    if negb (Nat.eqb (String.length errMsg) 0)
    then mkUi (billData u) errMsg (isAddModalOpen u) else u in
  let '(sent, st1) :=
    if Nat.eqb (String.length errMsg) 0
       && negb (JS.truthy (field (billData u) "billid"))
    then let (r, st') := addbill T (json_body (billData u)) st in (Some r, st')
    else (None, st) in
  let u2 := if Nat.eqb (String.length errMsg) 0 then handleClose u1 else u1 in
  (u2, st1, sent).

End Client.

(** ** The status rule in the words of the specification

    The rule as spec.md, section 4.1, states it; it is compared below with
    what the handlers store. *)
Definition spec_deriveStatus (amountDue amountPaid : float) : bool * bool :=
  if PrimFloat.ltb JS.zero amountPaid
  then (true, PrimFloat.eqb amountPaid amountDue)
  else (false, false).

(** The far-future date the client uses for an unpaid bill, "9999-01-01". *)
Definition sentinel_date : date := mkDate 9999 1 1.

(** ** A concrete [text_io] for running the handlers

    The universal statements below hold for every [text_io].  To evaluate the
    handlers on a request one is needed; this one agrees with JavaScript and
    PostgreSQL on the texts the examples exchange: integer literals, the
    boolean words, ISO dates, optionally followed by a time of day.  It is
    not meant for other texts (fractions, exponents, other date styles), and
    no example passes one. *)

Module Sample.

Fixpoint decimal (s : string) (acc : option Z) : option Z :=
  match s with
  | String c s' =>
      match JS.digit_value 10 c with
      | Some d => decimal s' (Some (10 * match acc with Some a => a | None => 0 end + d))
      | None => None
      end
  | EmptyString => acc
  end.

Fixpoint rev_string (s acc : string) : string :=
  match s with
  | String c s' => rev_string s' (String c acc)
  | EmptyString => acc
  end.

Definition trim (s : string) : string :=
  rev_string (JS.trim_start (rev_string (JS.trim_start s) "")) "".

Definition integer (s : string) : option (bool * Z) :=
  let (negative, digits) := JS.strip_sign (trim s) in
  match decimal digits None with
  | Some m => Some (negative, m)
  | None => None
  end.

Definition StringToNumber (s : string) : float :=
  if String.eqb (trim s) "" then JS.zero
  else
    match integer s with
    | Some (negative, 0) => if negative then JS.neg_zero else JS.zero
    | Some (negative, m) => JS.of_Z (if negative then - m else m)
    | None => JS.nan
    end.

Definition NumberToString (x : float) : string :=
  match JS.to_Z x with
  | Some n => NilZero.string_of_int (Z.to_int n)
  | None => "NaN"
  end.

Definition int4in (s : string) : option Z :=
  match integer s with
  | Some (negative, m) =>
      let n := if negative then - m else m in
      if (int4_min <=? n) && (n <=? int4_max) then Some n else None
  | None => None
  end.

Definition float8in (s : string) : option float :=
  match integer s with
  | Some (negative, 0) => Some (if negative then JS.neg_zero else JS.zero)
  | Some (negative, m) => Some (JS.of_Z (if negative then - m else m))
  | None => None
  end.

Definition boolin (s : string) : option bool :=
  let t := trim s in
  if String.eqb t "true" || String.eqb t "t" || String.eqb t "1" then Some true
  else if String.eqb t "false" || String.eqb t "f" || String.eqb t "0" then Some false
  else None.

Definition two_digits (a b : ascii) : option Z :=
  match JS.digit_value 10 a, JS.digit_value 10 b with
  | Some x, Some y => Some (10 * x + y)
  | _, _ => None
  end.

Definition date_in (s : string) : option date :=
  match s with
  | String y1 (String y2 (String y3 (String y4 (String "-"
      (String m1 (String m2 (String "-" (String d1 (String d2 rest))))))))) =>
      match two_digits y1 y2, two_digits y3 y4, two_digits m1 m2, two_digits d1 d2 with
      | Some yh, Some yl, Some m, Some d =>
          let time_ok :=
            match rest with
            | EmptyString | String "T" _ | String " " _ => true
            | _ => false
            end in
          if time_ok && (1 <=? m) && (m <=? 12) && (1 <=? d) && (d <=? 31)
          then Some (mkDate (100 * yh + yl) m d) else None
      | _, _, _, _ => None
      end
  | _ => None
  end.

Definition io : text_io :=
  mkTextIO StringToNumber NumberToString int4in float8in boolin date_in.

End Sample.

(** ** Predicates used in the statements *)

(** amountPaid absent from the body, or zero or below zero once read as a
    Number: the Number itself, the Number a string stands for, 0 for null and
    for false. *)
Definition absent_zero_or_negative (T : text_io) (v : value) : Prop :=
  v = JUndefined
  \/ PrimFloat.leb (JS.ToNumber (StringToNumber T) v) JS.zero = true.

(** The status rule of section 4.1 of the specification on the two amounts
    of a request, with the comparisons JavaScript makes on them: isPaid says
    amountPaid > 0, paidInFull says so and amountPaid == amountDue. *)
Definition spec_deriveStatus_of (T : text_io) (amountDue amountPaid : value)
  : bool * bool :=
  if JS.gt (StringToNumber T) amountPaid JS.zero
  then (true, JS.loose_eq (StringToNumber T) amountPaid amountDue)
  else (false, false).

(** Every stored bill that is marked paid in full is marked paid. *)
Definition paid_in_full_is_paid (st : store) : Prop :=
  forall n r, bills st !! n = Some r -> paidInFull r = Some true -> isPaid r = Some true.

(** An add request whose own "paidInFull" and "isPaid" members, as the
    boolean columns read them, do not say paid in full without saying paid.
    Other requests are not restricted. *)
Definition add_flags_consistent (T : text_io) (rq : request) : Prop :=
  match rq with
  | Add body =>
      bool_column T "paidInFull" (field body "paidInFull") = inr (Some true) ->
      bool_column T "isPaid" (field body "isPaid") = inr (Some true)
  | _ => True
  end.

(** The id segment of a pay, update or delete request names no stored bill:
    whatever integer the handler reads from it is not a billid of the table. *)
Definition no_such_bill (billId : string) (st : store) : Prop :=
  forall n, float_to_int4 (JS.parseInt billId) = Some n -> bills st !! n = None.

(** Replies that tell the caller the operation was carried out. *)
Definition reports_success (rp : reply) : bool :=
  match rp with
  | Text 200 _ _ => true
  | _ => false
  end.

Definition is_decimal_digit (c : ascii) : bool :=
  match JS.digit_value 10 c with
  | Some _ => true
  | None => false
  end.

Fixpoint all_decimal (s : string) : bool :=
  match s with
  | String c s' => is_decimal_digit c && all_decimal s'
  | EmptyString => true
  end.

(** A non-empty run of decimal digits. *)
Definition decimal_digits (s : string) : bool :=
  match s with
  | String _ _ => all_decimal s
  | EmptyString => false
  end.

(** Text that cannot continue a decimal number read by parseInt: it is empty
    or starts with a character that is neither a digit nor the x of a
    hexadecimal prefix. *)
Definition not_part_of_number (s : string) : bool :=
  match s with
  | String c _ =>
      negb (is_decimal_digit c) && negb (Ascii.eqb c "x") && negb (Ascii.eqb c "X")
  | EmptyString => true
  end.

(** ** Requests used in the examples

    The amounts of the README, 56.15 and 15.57, are the binary64 values
    JavaScript reads them as. *)

(** A request body from its members. *)
Definition obj (members : list (string * value)) : object := list_to_map members.

Definition amount_56_15 : float := 0x1.c133333333333p+5%float.
Definition amount_15_57 : float := 0x1.f23d70a3d70a4p+3%float.

(** The README's POST /addbill body: the four initial fields only. *)
Definition doctor_bill : object :=
  obj [("billfrom", JStr "Primary Care Doctor"); ("billType", JStr "Medical");
       ("amountDue", JNum amount_56_15);
       ("dueDate", JStr "2025-09-15T04:00:00.000Z")].

(** The same bill as the client's add form holds it after the four inputs
    were typed: input values are strings, the other members are the blank
    ones. *)
Definition doctor_bill_form : Client.ui :=
  Client.handleChange "dueDate" "2025-09-15"
    (Client.handleChange "amountDue" "56"
       (Client.handleChange "billType" "Medical"
          (Client.handleChange "billfrom" "Primary Care Doctor"
             (Client.mkUi Client.blank_billData "" true)))).

(** The table holding the README's bill as bill 1, unpaid. *)
Definition one_bill : store :=
  snd (addbill Sample.io
         (obj [("billfrom", JStr "Primary Care Doctor"); ("billType", JStr "Medical");
               ("amountDue", JNum amount_56_15); ("dueDate", JStr "2025-09-15");
               ("isPaid", JBool false); ("paidInFull", JBool false);
               ("amountPaid", JNum JS.zero); ("datePaid", JStr "9999-01-01");
               ("paidBy", JStr "")])
         empty_store).

(** The README's PATCH /paybill/1 body, and a partial payment. *)
Definition full_payment : object :=
  obj [("amountDue", JNum amount_56_15); ("amountPaid", JNum amount_56_15);
       ("datePaid", JStr "2025-08-12"); ("paidBy", JStr "Visa")].

Definition partial_payment : object :=
  obj [("amountDue", JNum amount_56_15); ("amountPaid", JNum amount_15_57);
       ("datePaid", JStr "2025-08-10"); ("paidBy", JStr "Visa")].

(** Add requests that carry payment members of their own. *)
Definition prepaid_bill : object :=
  obj [("billfrom", JStr "Electric Company"); ("billType", JStr "Utility");
       ("amountDue", JNum 120.5%float); ("dueDate", JStr "2025-09-15");
       ("isPaid", JBool true); ("paidInFull", JBool true);
       ("amountPaid", JNum 25%float); ("datePaid", JStr "2025-08-12");
       ("paidBy", JStr "Visa")].

Definition flagged_bill : object :=
  obj [("billfrom", JStr "Electric Company"); ("billType", JStr "Utility");
       ("amountDue", JNum 120.5%float); ("dueDate", JStr "2025-09-15");
       ("isPaid", JBool true); ("paidInFull", JBool true);
       ("amountPaid", JNum JS.zero); ("datePaid", JStr "9999-01-01");
       ("paidBy", JStr "")].

Definition full_not_paid_bill : object :=
  obj [("billfrom", JStr "Electric Company"); ("billType", JStr "Utility");
       ("amountDue", JNum 120.5%float); ("dueDate", JStr "2025-09-15");
       ("isPaid", JBool false); ("paidInFull", JBool true);
       ("amountPaid", JNum JS.zero); ("datePaid", JStr "9999-01-01");
       ("paidBy", JStr "")].

(** An add request with an empty billfrom and a zero amountDue, as the blank
    form would post them. *)
Definition bill_with_blanks : object :=
  obj [("billfrom", JStr ""); ("billType", JStr "Utility");
       ("amountDue", JNum JS.zero); ("dueDate", JStr "2025-09-15");
       ("isPaid", JBool false); ("paidInFull", JBool false);
       ("amountPaid", JNum JS.zero); ("datePaid", JStr "9999-01-01");
       ("paidBy", JStr "")].

(** An add request without amountDue. *)
Definition bill_without_amount : object :=
  obj [("billfrom", JStr "Electric Company"); ("billType", JStr "Utility");
       ("dueDate", JStr "2025-09-15")].

(** The add form with the amount left at its blank value. *)
Definition form_without_amount : Client.ui :=
  Client.handleChange "dueDate" "2025-09-15"
    (Client.handleChange "billType" "Utility"
       (Client.handleChange "billfrom" "Electric Company"
          (Client.mkUi Client.blank_billData "" true))).

(** An update request that sets both amounts to zero. *)
Definition zero_amounts_update : object :=
  obj [("billfrom", JStr "Primary Care Doctor"); ("billType", JStr "Medical");
       ("amountDue", JNum JS.zero); ("dueDate", JStr "2025-09-15");
       ("amountPaid", JNum JS.zero); ("datePaid", JStr "9999-01-01");
       ("paidBy", JStr "")].

(** An update request that leaves both amounts out. *)
Definition no_amounts_update : object :=
  obj [("billfrom", JStr "Primary Care Doctor"); ("billType", JStr "Medical");
       ("dueDate", JStr "2025-09-15")].

(** A session of the README: add the bill, pay it in full, read it, correct
    it, delete another id. *)
Definition readme_session : list request :=
  [Add (Client.json_body (Client.billData doctor_bill_form));
   Pay "1" full_payment;
   Get "1";
   Update "1"
     (obj [("billfrom", JStr "Internal Medicine Doctor"); ("billType", JStr "Medical");
           ("amountDue", JNum amount_56_15); ("dueDate", JStr "2025-09-15");
           ("amountPaid", JNum amount_56_15); ("datePaid", JStr "2025-08-12");
           ("paidBy", JStr "Visa")]);
   Delete "2"].

(** ** The two routes of server.js that only read *)

(** ORDER BY billid ASC. *)
Definition billid_le (a b : bill) : Prop := billid a <= billid b.

#[global] Instance billid_le_dec (a b : bill) : Decision (billid_le a b) :=
  Z_le_dec (billid a) (billid b).

(** select ... from bills ORDER BY billid ASC: all rows, by ascending
    billid. *)
Definition select_all (st : store) : query_result * store :=
  (QRows (merge_sort billid_le (snd <$> map_to_list (bills st))), st).

(** SELECT "amountPaid" FROM bills WHERE billid=$1: the one column of the
    rows that match. *)
Definition select_amount_paid (T : text_io) (params : list value) (st : store)
  : (pg_error + list (option float)) * store :=
  match params with
  | [p1] =>
      match int4_column T "billid" p1 with
      | inl e => (inl e, st)
      | inr None => (inr [], st)
      | inr (Some n) =>
          (inr match bills st !! n with Some r => [amountPaid r] | None => [] end, st)
      end
  | _ => (inl BindMismatch, st)
  end.

Inductive read_reply : Type :=
| JsonRows (status : Z) (rows : list bill)        (* res.status(200).json(result.rows) *)
| JsonAmount (status : Z) (row : option (option float))
                                                   (* res.status(200).json(result.rows[0]) *)
| JsonReadError (err : pg_error).                  (* res.json(err) *)

(** app.get("/bills") *)
Definition getbills (st : store) : read_reply * store :=
  let (result, st') := select_all st in
  match result with
  | QError err => (JsonReadError err, st')
  | QRows rows => (JsonRows 200 rows, st')
  end.

(** app.get("/bills/amountPaid/:billId") *)
Definition getamountpaid (T : text_io) (billId : string) (st : store)
  : read_reply * store :=
  let billNum := JS.parseInt billId in
  let (result, st') := select_amount_paid T [JNum billNum] st in
  match result with
  | inl err => (JsonReadError err, st')
  | inr rows => (JsonAmount 200 (head rows), st')
  end.

(** ** Tables reached by the server *)

(** Every row sits under its own billid, the ids in use are those the
    sequence has handed out, and the sequence is within its bounds. *)
Definition well_keyed (st : store) : Prop :=
  1 <= billid_seq st <= seq_maxvalue + 1
  /\ forall n r, bills st !! n = Some r -> billid r = n /\ 1 <= n < billid_seq st.

(** The columns a payment does not concern. *)
Definition bill_details (r : bill)
  : Z * option string * option string * option float * option date :=
  (billid r, billfrom r, billType r, amountDue r, dueDate r).

(** ** The rest of the client (App.jsx) *)

Module App.

(** String.prototype.toLowerCase on code units below 256: the letters A to Z
    and the Latin-1 capitals (all of 192 to 222 but the multiplication sign)
    move up by 32. *)
Definition lower_unit (c : ascii) : ascii :=
  let n := N_of_ascii c in
  if ((65 <=? n) && (n <=? 90)
      || (192 <=? n) && (n <=? 222) && negb (n =? 215))%N
  then ascii_of_N (n + 32) else c.

Fixpoint toLowerCase (s : string) : string :=
  match s with
  | String c s' => String (lower_unit c) (toLowerCase s')
  | EmptyString => EmptyString
  end.

(** String.prototype.includes(searchString). *)
Fixpoint includes (s sub : string) : bool :=
  String.prefix sub s
  || match s with
     | String _ s' => includes s' sub
     | EmptyString => false
     end.

Record state : Type := mkState {
  bills : list object;
  filteredBills : list object;
  isAddModalOpen : bool;
  isPayModalOpen : bool;
  isUpdateModalOpen : bool;
  billData : object;
  errorMsg : string
}.

(** The state of a freshly loaded page, before the list has arrived. *)
Definition initial : state :=
  mkState [] [] false false false Client.blank_billData "".

Definition pay_required_msg : string :=
  "The Amount Paid, Date Paid, and Paid By fields are required when paying a bill!".

Definition update_required_msg : string :=
  "The Bill From, Bill Type, Amount Due, and Due Date fields are required when updating a bill entry!".

Definition setBillData (o : object) (s : state) : state :=
  mkState (bills s) (filteredBills s) (isAddModalOpen s) (isPayModalOpen s)
    (isUpdateModalOpen s) o (errorMsg s).

Definition setErrorMsg (msg : string) (s : state) : state :=
  mkState (bills s) (filteredBills s) (isAddModalOpen s) (isPayModalOpen s)
    (isUpdateModalOpen s) (billData s) msg.

Definition setFilteredBills (l : list object) (s : state) : state :=
  mkState (bills s) l (isAddModalOpen s) (isPayModalOpen s)
    (isUpdateModalOpen s) (billData s) (errorMsg s).

Definition setBills (l : list object) (s : state) : state :=
  mkState l (filteredBills s) (isAddModalOpen s) (isPayModalOpen s)
    (isUpdateModalOpen s) (billData s) (errorMsg s).

Definition setIsPayModalOpen (b : bool) (s : state) : state :=
  mkState (bills s) (filteredBills s) (isAddModalOpen s) b
    (isUpdateModalOpen s) (billData s) (errorMsg s).

Definition setIsUpdateModalOpen (b : bool) (s : state) : state :=
  mkState (bills s) (filteredBills s) (isAddModalOpen s) (isPayModalOpen s)
    b (billData s) (errorMsg s).

(** [setBillData({...billData,[e.target.name]:e.target.value})] *)
Definition handleChange (name text : string) (s : state) : state :=
  setBillData (<[name := JStr text]> (billData s)) s.

(** The text a value has inside a template literal. *)
Definition ToString (T : text_io) (v : value) : string :=
  match v with
  | JUndefined => "undefined"
  | JNull => "null"
  | JBool b => if b then "true" else "false"
  | JNum x => NumberToString T x
  | JStr s => s
  end.

Section Pages.
Variable T : text_io.
(** TO_CHAR(.., 'YYYY-MM-DD') of the list query is taken as given. *)
Variable to_char : date -> string.

Definition json_null {A : Type} (f : A -> value) (c : option A) : value :=
  match c with
  | Some a => f a
  | None => JNull
  end.

Definition json_number (x : float) : value :=
  if Client.is_finite x
  then JNum (if PrimFloat.eqb x JS.zero then JS.zero else x)
  else JNull.

(** A row of the list query as the client receives it: NULL is null, the
    dates are the texts of TO_CHAR, a double precision value arrives as a
    Number unless it is NaN or infinite, which JSON turns into null. *)
Definition row_object (r : bill) : object :=
  list_to_map
    [("billid", JNum (JS.of_Z (billid r)));
     ("billfrom", json_null JStr (billfrom r));
     ("billType", json_null JStr (billType r));
     ("amountDue", json_null json_number (amountDue r));
     ("dueDate", json_null (fun d => JStr (to_char d)) (dueDate r));
     ("isPaid", json_null JBool (isPaid r));
     ("paidInFull", json_null JBool (paidInFull r));
     ("amountPaid", json_null json_number (amountPaid r));
     ("datePaid", json_null (fun d => JStr (to_char d)) (datePaid r));
     ("paidBy", json_null JStr (paidBy r))].

(** [getAllBills], once the response has arrived. *)
Definition getAllBills (s : state) (st : store) : state :=
  match fst (getbills st) with
  | JsonRows _ rows =>
      setFilteredBills (row_object <$> rows) (setBills (row_object <$> rows) s)
  | _ => s
  end.

(** [x.toLowerCase()]: a TypeError ([None]) unless [x] is a string. *)
Definition lower_text (v : value) : option string :=
  match v with
  | JStr s => Some (toLowerCase s)
  | _ => None
  end.

(** [x.toString().toLowerCase()]: a TypeError ([None]) on null and
    undefined. *)
Definition lower_string (v : value) : option string :=
  match v with
  | JUndefined | JNull => None
  | _ => Some (toLowerCase (ToString T v))
  end.

(** [t1.includes(v) || t2.includes(v) || ...], left to right: a text that
    could not be made throws when it is reached. *)
Fixpoint any_includes (texts : list (option string)) (searchValue : string)
  : option bool :=
  match texts with
  | [] => Some false
  | None :: _ => None
  | Some t :: rest =>
      if includes t searchValue then Some true else any_includes rest searchValue
  end.

(** The predicate handed to [bills.filter]. *)
Definition search_matches (searchValue : string) (bill : object) : option bool :=
  any_includes
    [lower_text (field bill "billfrom");
     lower_text (field bill "billType");
     lower_string (field bill "amountDue");
     lower_text (field bill "dueDate");
     lower_string (field bill "isPaid");
     lower_string (field bill "paidInFull");
     lower_string (field bill "amountPaid");
     lower_string (field bill "datePaid");
     lower_text (field bill "paidBy")]
    searchValue.

(** Array.prototype.filter with a predicate that may throw. *)
Fixpoint filter_bills (keep : object -> option bool) (l : list object)
  : option (list object) :=
  match l with
  | [] => Some []
  | b :: rest =>
      match keep b with
      | None => None
      | Some k =>
          match filter_bills keep rest with
          | None => None
          | Some kept => Some (if k then b :: kept else kept)
          end
      end
  end.

(** [handleSearch]: [None] when the filter throws. *)
Definition handleSearch (text : string) (s : state) : option state :=
  let searchValue := toLowerCase text in
  match filter_bills (search_matches searchValue) (bills s) with
  | Some filteredData => Some (setFilteredBills filteredData s)
  | None => None
  end.

(** [handleUpdate(bill)]: the Pay button of a row. *)
Definition handleUpdate (bill : object) (s : state) : state :=
  setIsPayModalOpen true (setBillData bill s).

(** [handleFieldUpdates(bill)]: the Update button of a row. *)
Definition handleFieldUpdates (bill : object) (s : state) : state :=
  setIsUpdateModalOpen true (setBillData bill s).

Definition handlePayClose (s : state) (st : store) : state :=
  setErrorMsg ""
    (setBillData Client.blank_billData
       (getAllBills (setIsPayModalOpen false s) st)).

Definition handleUpdateClose (s : state) (st : store) : state :=
  setErrorMsg ""
    (setBillData Client.blank_billData
       (getAllBills (setIsUpdateModalOpen false s) st)).

(** [handlePaySubmit]: the state and the table afterwards, and the server's
    reply when the PATCH was sent. *)
Definition handlePaySubmit (s : state) (st : store) : state * store * option reply :=
  let errMsg :=
    if negb (JS.truthy (field (billData s) "amountPaid"))
       || negb (JS.truthy (field (billData s) "datePaid"))
       || negb (JS.truthy (field (billData s) "paidBy"))
    then pay_required_msg else "" in
  let s1 := if negb (Nat.eqb (String.length errMsg) 0) then setErrorMsg errMsg s else s in
  if Nat.eqb (String.length errMsg) 0
  then
    let (r, st') :=
      paybill T (ToString T (field (billData s) "billid"))
        (Client.json_body (billData s)) st in
    (handlePayClose s1 st', st', Some r)
  else (s1, st, None).

(** [handleUpdateSubmit] *)
Definition handleUpdateSubmit (s : state) (st : store) : state * store * option reply :=
  let errMsg :=
    if negb (JS.truthy (field (billData s) "billfrom"))
       || negb (JS.truthy (field (billData s) "billType"))
       || negb (JS.truthy (field (billData s) "amountDue"))
       || negb (JS.truthy (field (billData s) "dueDate"))
    then update_required_msg else "" in
  let s1 := if negb (Nat.eqb (String.length errMsg) 0) then setErrorMsg errMsg s else s in
  if Nat.eqb (String.length errMsg) 0
  then
    let (r, st') :=
      updatebill T (ToString T (field (billData s) "billid"))
        (Client.json_body (billData s)) st in
    (handleUpdateClose s1 st', st', Some r)
  else (s1, st, None).

(** [handleDelete(billId)]: [isConfirmed] is the answer to window.confirm.
    The page is reloaded at the end, so the state afterwards is the one of a
    fresh page that has fetched the list. *)
Definition handleDelete (isConfirmed : bool) (billId : value) (st : store)
  : state * store * option reply :=
  let '(sent, st') :=
    if isConfirmed
    then let (r, st1) := deletebill T (ToString T billId) st in (Some r, st1)
    else (None, st) in
  (getAllBills initial st', st', sent).

End Pages.

End App.

(** TO_CHAR(.., 'YYYY-MM-DD') for years 0 to 9999, for running the
    examples. *)
Definition sample_digit (n : Z) : ascii := ascii_of_N (Z.to_N (48 + n mod 10)).

Definition sample_to_char (d : date) : string :=
  String (sample_digit (year d / 1000))
    (String (sample_digit (year d / 100))
       (String (sample_digit (year d / 10))
          (String (sample_digit (year d))
             (String "-"
                (String (sample_digit (month d / 10))
                   (String (sample_digit (month d))
                      (String "-"
                         (String (sample_digit (day d / 10))
                            (String (sample_digit (day d)) EmptyString))))))))).

(** The add form after the four inputs were typed into a fresh form. *)
Definition typed_add_form (from type due day : string) : Client.ui :=
  Client.handleChange "dueDate" day
    (Client.handleChange "amountDue" due
       (Client.handleChange "billType" type
          (Client.handleChange "billfrom" from
             (Client.mkUi Client.blank_billData "" true)))).

(** The row of an unpaid bill, as the add form's request creates it. *)
Definition unpaid_bill (id : Z) (from type : string) (due : float) (day : date) : bill :=
  mkBill id (Some from) (Some type) (Some due) (Some day) (Some false) (Some false)
    (Some JS.zero) (Some sentinel_date) (Some "").

(** An add request as the README sends it, the four initial fields alone,
    with a whole amount. *)
Definition four_field_bill : object :=
  obj [("billfrom", JStr "Water Works"); ("billType", JStr "Utility");
       ("amountDue", JNum 40%float); ("dueDate", JStr "2025-10-01")].

(** The pay dialog opened on a listed row, with the three payment inputs
    typed. *)
Definition typed_pay_form (to_char : date -> string) (r : bill)
    (paid day payer : string) (s : App.state) : App.state :=
  App.handleChange "paidBy" payer
    (App.handleChange "datePaid" day
       (App.handleChange "amountPaid" paid
          (App.handleUpdate (App.row_object to_char r) s))).

(** The table after bill 1 was paid in full, and a pay request whose amount
    is the text "0". *)
Definition paid_bill : store := snd (paybill Sample.io "1" full_payment one_bill).

Definition zero_text_payment : object :=
  obj [("amountDue", JNum amount_56_15); ("amountPaid", JStr "0");
       ("datePaid", JStr "2025-08-12"); ("paidBy", JStr "Visa")].

(** A pay and an update request that carry flags of their own, opposite to
    what their amounts say. *)
Definition flagged_payment : object :=
  <["isPaid" := JBool false]> (<["paidInFull" := JBool true]> partial_payment).

Definition reset_update : object :=
  obj [("billfrom", JStr "Primary Care Doctor"); ("billType", JStr "Medical");
       ("amountDue", JNum amount_56_15); ("dueDate", JStr "2025-09-15");
       ("amountPaid", JNum JS.zero); ("datePaid", JStr "9999-01-01");
       ("paidBy", JStr "")].

Definition flagged_update : object :=
  <["isPaid" := JBool true]> (<["paidInFull" := JBool true]> reset_update).

(** A pay request whose paidBy holds the code unit 0. *)
Definition nul_payer_payment : object :=
  obj [("amountDue", JNum amount_56_15); ("amountPaid", JNum amount_56_15);
       ("datePaid", JStr "2025-08-12");
       ("paidBy", JStr (String Ascii.zero "Visa"))].

(* ===================================================================== *)
(** * Properties *)

Example parseInt_12 : JS.to_Z (JS.parseInt "12") = Some 12.
Proof. vm_compute. reflexivity. Qed.

Example parseInt_trailing : JS.to_Z (JS.parseInt " -12.7abc") = Some (-12).
Proof. vm_compute. reflexivity. Qed.

Example parseInt_hex : JS.to_Z (JS.parseInt "0x1F") = Some 31.
Proof. vm_compute. reflexivity. Qed.

Example parseInt_nan : JS.parseInt "abc" = JS.nan.
Proof. vm_compute. reflexivity. Qed.

Example sample_date : Sample.date_in "2025-09-15T04:00:00.000Z" = Some (mkDate 2025 9 15).
Proof. vm_compute. reflexivity. Qed.

(** ** Comparisons of Numbers with zero *)

Section ZeroComparisons.

Lemma Prim2SF_zero : Prim2SF JS.zero = S754_zero false.
Proof. reflexivity. Qed.

Lemma gt_zero_not_eq_zero (x : float) :
  PrimFloat.ltb JS.zero x = true -> PrimFloat.eqb x JS.zero = false.
Proof.
  rewrite FloatAxioms.ltb_spec, FloatAxioms.eqb_spec, Prim2SF_zero.
  unfold SFltb, SFeqb, SFcompare.
  destruct (Prim2SF x) as [s | s | | s m e]; try destruct s; simpl; congruence.
Qed.

Lemma le_zero_not_gt_zero (x : float) :
  PrimFloat.leb x JS.zero = true -> PrimFloat.ltb JS.zero x = false.
Proof.
  rewrite FloatAxioms.ltb_spec, FloatAxioms.leb_spec, Prim2SF_zero.
  unfold SFltb, SFleb, SFcompare.
  destruct (Prim2SF x) as [s | s | | s m e]; try destruct s; simpl; congruence.
Qed.

Lemma float8_of_positive (x : float) :
  PrimFloat.ltb JS.zero x = true -> float_to_float8 x = x.
Proof.
  intros H. unfold float_to_float8. now rewrite gt_zero_not_eq_zero.
Qed.

End ZeroComparisons.

(** ** The table under UPDATE and DELETE *)

Section Table.

Lemma alter_stored (f : bill -> bill) (n : Z) (r : bill) (m : gmap Z bill) :
  m !! n = Some r -> alter f n m = <[n := f r]> m.
Proof.
  intros Hr. apply map_eq. intros k.
  rewrite lookup_alter, lookup_insert.
  destruct (decide (n = k)) as [<- | Hne]; [now rewrite Hr | reflexivity].
Qed.

Lemma where_billid_absent (id : option Z) (f : bill -> bill) (st : store) :
  (forall n, id = Some n -> bills st !! n = None) -> where_billid id f st = st.
Proof.
  intros Habsent. destruct st as [m q]. destruct id as [n | ]; [ | reflexivity].
  unfold where_billid. simpl in *. f_equal. apply alter_id'. now apply Habsent.
Qed.

(** An UPDATE whose SET clause does not read the old row can be run twice. *)
Lemma where_billid_twice (id : option Z) (f : bill -> bill) (st : store) :
  (forall r, f (f r) = f r) ->
  where_billid id f (where_billid id f st) = where_billid id f st.
Proof.
  intros Hf. destruct id as [n | ]; [ | reflexivity].
  unfold where_billid. simpl. f_equal.
  rewrite alter_alter_eq. apply alter_ext. intros r _. apply Hf.
Qed.

End Table.

(** ** What the handlers read from the body *)

Section Fields.

Lemma field_insert_ne (o : object) (k k' : string) (v : value) :
  k <> k' -> field (<[k := v]> o) k' = field o k'.
Proof. intros Hne. unfold field. now rewrite lookup_insert_ne. Qed.

Lemma field_insert_eq (o : object) (k : string) (v : value) :
  field (<[k := v]> o) k = v.
Proof. unfold field. now rewrite lookup_insert_eq. Qed.

End Fields.

Section PayBill.
Variable T : text_io.

Lemma gt_number (x y : float) :
  JS.gt (StringToNumber T) (JNum x) y = PrimFloat.ltb y x.
Proof. reflexivity. Qed.

(** With an amountPaid above zero the handler always picks an UPDATE, and
    "paidInFull" is the outcome of [amountPaid == amountDue]. *)
Lemma paybill_sql_positive (paid due : value) :
  JS.gt (StringToNumber T) paid JS.zero = true ->
  paybill_sql T paid due =
    Some (UpdatePayment true (JS.loose_eq (StringToNumber T) paid due)).
Proof.
  intros Hpos. unfold paybill_sql. rewrite Hpos.
  now destruct (JS.loose_eq (StringToNumber T) paid due).
Qed.

Lemma paybill_sql_not_positive (paid due : value) :
  JS.gt (StringToNumber T) paid JS.zero = false -> paybill_sql T paid due = None.
Proof.
  intros Hgt. unfold paybill_sql. rewrite Hgt.
  now rewrite andb_false_r.
Qed.

(** A payment above zero for a stored bill, with members the columns
    accept: the row afterwards. *)
Lemma paybill_positive_payment (billId : string) (n : Z) (body : object)
    (st : store) (r : bill) (paid : option float) (day : option date)
    (payer : option string) :
  float_to_int4 (JS.parseInt billId) = Some n ->
  bills st !! n = Some r ->
  JS.gt (StringToNumber T) (field body "amountPaid") JS.zero = true ->
  float8_column T "amountPaid" (field body "amountPaid") = inr paid ->
  date_column T "datePaid" (field body "datePaid") = inr day ->
  varchar_column T "paidBy" (field body "paidBy") = inr payer ->
  paybill T billId body st =
    (Text 200 PaymentUpdated (JS.parseInt billId),
     mkStore
       (<[n := mkBill (billid r) (billfrom r) (billType r) (amountDue r) (dueDate r)
                (Some true)
                (Some (JS.loose_eq (StringToNumber T) (field body "amountPaid")
                         (field body "amountDue")))
                paid day payer]> (bills st))
       (billid_seq st)).
Proof.
  intros Hid Hr Hpos Hpaid Hday Hby.
  unfold paybill. rewrite (paybill_sql_positive _ _ Hpos).
  unfold pool_query, update_payment.
  rewrite Hpaid, Hday, Hby. unfold int4_column. rewrite Hid. simpl.
  unfold where_billid. now rewrite (alter_stored _ n r (bills st) Hr).
Qed.

End PayBill.

Lemma not_positive_gt (T : text_io) (v : value) :
  absent_zero_or_negative T v -> JS.gt (StringToNumber T) v JS.zero = false.
Proof.
  intros [-> | Hle]; [reflexivity | ].
  unfold JS.gt. now apply le_zero_not_gt_zero.
Qed.

(** A character varying column takes every text without the code unit 0 as
    it is, and refuses a text that holds one. *)
Lemma varchar_column_text (T : text_io) (column s : string) :
  varchar_column T column (JStr s)
  = if has_nul s then inl (InvalidText column) else inr (Some s).
Proof.
  unfold varchar_column, column_in, varchar_in. simpl. now destruct (has_nul s).
Qed.

Example pay_with_nul_payer :
  paybill Sample.io "1" nul_payer_payment one_bill
  = (JsonError (InvalidText "paidBy"), one_bill).
Proof. vm_compute. reflexivity. Qed.

(** C7.  A pay request for a stored bill whose amountPaid is above zero
    ([amountPaid > 0] as JavaScript evaluates it) and whose amountPaid,
    datePaid and paidBy the columns accept is answered with the confirmation;
    afterwards the bill has "isPaid" true, "paidInFull" true exactly when
    amountPaid equals amountDue, and the supplied amountPaid, datePaid and
    paidBy; its other columns and all other bills are as before.  Equality is
    [amountPaid == amountDue]: equality of Numbers, without tolerance, as
    soon as one of the two is a Number (a string is read as the Number it
    stands for), and equality of the texts when both are strings. *)
Theorem C7_paybill_records_payment (T : text_io) (billId : string) (n : Z)
    (body : object) (st : store) (r : bill) (paid : option float)
    (day : option date) (payer : option string) :
  float_to_int4 (JS.parseInt billId) = Some n ->
  bills st !! n = Some r ->
  JS.gt (StringToNumber T) (field body "amountPaid") JS.zero = true ->
  float8_column T "amountPaid" (field body "amountPaid") = inr paid ->
  date_column T "datePaid" (field body "datePaid") = inr day ->
  varchar_column T "paidBy" (field body "paidBy") = inr payer ->
  paybill T billId body st =
    (Text 200 PaymentUpdated (JS.parseInt billId),
     mkStore
       (<[n := mkBill (billid r) (billfrom r) (billType r) (amountDue r) (dueDate r)
                (Some true)
                (Some (JS.loose_eq (StringToNumber T) (field body "amountPaid")
                         (field body "amountDue")))
                paid day payer]> (bills st))
       (billid_seq st))
  /\ (forall x d, field body "amountPaid" = JNum x -> field body "amountDue" = JNum d ->
        JS.loose_eq (StringToNumber T) (field body "amountPaid")
          (field body "amountDue") = PrimFloat.eqb x d
        /\ paid = Some x)
  /\ (forall s d, field body "amountPaid" = JStr s -> field body "amountDue" = JNum d ->
        JS.loose_eq (StringToNumber T) (field body "amountPaid")
          (field body "amountDue") = PrimFloat.eqb (StringToNumber T s) d
        /\ float8in T s = paid)
  /\ (forall s t, field body "amountPaid" = JStr s -> field body "amountDue" = JStr t ->
        JS.loose_eq (StringToNumber T) (field body "amountPaid")
          (field body "amountDue") = String.eqb s t)
  /\ (forall s, field body "datePaid" = JStr s -> date_in T s = day)
  /\ (forall s, field body "paidBy" = JStr s -> payer = Some s /\ has_nul s = false).
Proof.
  intros Hid Hr Hpos Hpaid Hday Hby.
  split; [now apply paybill_positive_payment | ].
  split; [ | split; [ | split; [ | split]]].
  - intros x d Hx Hd. rewrite Hx, Hd. split; [reflexivity | ].
    rewrite Hx in Hpos, Hpaid. simpl in Hpaid.
    rewrite (float8_of_positive x Hpos) in Hpaid. now injection Hpaid.
  - intros s d Hs Hd. rewrite Hs, Hd. split; [reflexivity | ].
    rewrite Hs in Hpaid. unfold float8_column, column_in in Hpaid. simpl in Hpaid.
    destruct (float8in T s); [now injection Hpaid | discriminate].
  - intros s t Hs Ht. now rewrite Hs, Ht.
  - intros s Hs. rewrite Hs in Hday. unfold date_column, column_in in Hday.
    simpl in Hday. destruct (date_in T s); [now injection Hday | discriminate].
  - intros s Hs. rewrite Hs in Hby.
    unfold varchar_column, column_in, varchar_in in Hby. simpl in Hby.
    destruct (has_nul s); [discriminate | ]. split; [now injection Hby | reflexivity].
Qed.

Example one_bill_row :
  bills one_bill !! 1 =
    Some (mkBill 1 (Some "Primary Care Doctor") (Some "Medical") (Some amount_56_15)
            (Some (mkDate 2025 9 15)) (Some false) (Some false) (Some JS.zero)
            (Some sentinel_date) (Some "")).
Proof. vm_compute. reflexivity. Qed.

Lemma C7_witness :
  paybill Sample.io "1" full_payment one_bill =
    (Text 200 PaymentUpdated (JS.parseInt "1"),
     mkStore
       (<[1 := mkBill 1 (Some "Primary Care Doctor") (Some "Medical")
                (Some amount_56_15) (Some (mkDate 2025 9 15))
                (Some true) (Some (PrimFloat.eqb amount_56_15 amount_56_15))
                (Some amount_56_15) (Some (mkDate 2025 8 12)) (Some "Visa")]>
          (bills one_bill))
       (billid_seq one_bill))
  /\ PrimFloat.eqb amount_56_15 amount_56_15 = true.
Proof.
  split; [ | vm_compute; reflexivity].
  apply (proj1 (C7_paybill_records_payment Sample.io "1" 1 full_payment one_bill
                  (mkBill 1 (Some "Primary Care Doctor") (Some "Medical")
                     (Some amount_56_15) (Some (mkDate 2025 9 15)) (Some false)
                     (Some false) (Some JS.zero) (Some sentinel_date) (Some ""))
                  (Some amount_56_15) (Some (mkDate 2025 8 12)) (Some "Visa")
                  eq_refl eq_refl eq_refl eq_refl eq_refl eq_refl)).
Defined.

(** A payment as the client's pay form sends it: the typed amount is a
    string, the amount due is the Number read from the table. *)
Example pay_from_form :
  (fun r => (isPaid r, paidInFull r, amountPaid r)) <$>
    bills (snd (paybill Sample.io "1"
                  (obj [("amountDue", JNum 56%float); ("amountPaid", JStr "56");
                        ("datePaid", JStr "2025-08-12"); ("paidBy", JStr "Visa")])
                  one_bill)) !! 1
  = Some (Some true, Some true, Some 56%float).
Proof. vm_compute. reflexivity. Qed.

(** The two scenarios of the specification, run on the table. *)
Example pay_in_full :
  (fun r => (isPaid r, paidInFull r)) <$>
    bills (snd (paybill Sample.io "1" full_payment one_bill)) !! 1
  = Some (Some true, Some true).
Proof. vm_compute. reflexivity. Qed.

Example pay_in_part :
  (fun r => (isPaid r, paidInFull r, amountPaid r)) <$>
    bills (snd (paybill Sample.io "1" partial_payment one_bill)) !! 1
  = Some (Some true, Some false, Some amount_15_57).
Proof. vm_compute. reflexivity. Qed.

(** ** The shape of the two UPDATE statements

    Whether an UPDATE is accepted depends on its parameters alone; when it is,
    it rewrites the row of one billid with a SET clause that does not read
    the old payment columns. *)

Section Updates.
Variable T : text_io.

Ltac refused := left; eexists; intros; reflexivity.

Ltac next_column c :=
  match goal with
  | |- context [bind_res ?col _] =>
      destruct col as [? | c] eqn:?; simpl; [refused | ]
  end.

Lemma update_payment_cases (a b : bool) (params : list value) :
  (exists e, forall st, update_payment T a b params st = (QError e, st))
  \/ (exists id f,
        (forall r, isPaid (f r) = Some a /\ paidInFull (f r) = Some b
                   /\ f (f r) = f r)
        /\ (forall p, last params = Some p -> int4_column T "billid" p = inr id)
        /\ forall st, update_payment T a b params st = (QRows [], where_billid id f st)).
Proof.
  unfold update_payment.
  destruct params as [ | p1 [ | p2 [ | p3 [ | p4 [ | ? ?]]]]]; try refused.
  next_column c1. next_column c2. next_column c3. next_column key.
  right. eexists _, _. split; [ | split; [ | intros; reflexivity]].
  - intros r. simpl. auto.
  - intros p [= <-]. assumption.
Qed.

Lemma update_all_cases (a b : bool) (params : list value) :
  (exists e, forall st, update_all T a b params st = (QError e, st))
  \/ (exists id f,
        (forall r, isPaid (f r) = Some a /\ paidInFull (f r) = Some b
                   /\ f (f r) = f r)
        /\ (forall p, last params = Some p -> int4_column T "billid" p = inr id)
        /\ forall st, update_all T a b params st = (QRows [], where_billid id f st)).
Proof.
  unfold update_all.
  destruct params
    as [ | p1 [ | p2 [ | p3 [ | p4 [ | p5 [ | p6 [ | p7 [ | p8 [ | ? ?]]]]]]]]];
    try refused.
  next_column c1. next_column c2. next_column c3. next_column c4.
  next_column c5. next_column c6. next_column c7. next_column key.
  right. eexists _, _. split; [ | split; [ | intros; reflexivity]].
  - intros r. simpl. auto.
  - intros p [= <-]. assumption.
Qed.

Lemma int4_column_number (x : float) (id : option Z) :
  int4_column T "billid" (JNum x) = inr id ->
  exists n, id = Some n /\ float_to_int4 x = Some n.
Proof.
  unfold int4_column. destruct (float_to_int4 x) as [n | ]; [ | discriminate].
  intros [= <-]. eauto.
Qed.

Lemma updatebill_sql_cases (paid due : value) :
  exists a b, updatebill_sql T paid due = Some (UpdateAll a b)
              /\ (b = true -> a = true).
Proof.
  unfold updatebill_sql.
  destruct (JS.loose_eq _ paid due); [ eauto | ].
  destruct (JS.gt _ paid JS.zero); eexists _, _; split; eauto; discriminate.
Qed.

Lemma paybill_sql_cases (paid due : value) :
  paybill_sql T paid due = None
  \/ exists b, paybill_sql T paid due = Some (UpdatePayment true b).
Proof.
  unfold paybill_sql.
  destruct (JS.loose_eq _ paid due && JS.gt _ paid JS.zero); [ eauto | ].
  destruct (JS.gt _ paid JS.zero); eauto.
Qed.

End Updates.

(** C8.  updateBill is idempotent: a second update request with the same id
    and the same body gets the same reply and leaves the table as the first
    one left it. *)
Theorem C8_updatebill_idempotent (T : text_io) (billId : string)
    (body : object) (st : store) :
  updatebill T billId body (snd (updatebill T billId body st))
  = updatebill T billId body st.
Proof.
  unfold updatebill.
  destruct (updatebill_sql_cases T (field body "amountPaid") (field body "amountDue"))
    as (a & b & -> & _).
  unfold pool_query.
  match goal with
  | |- context [update_all T a b ?ps _] =>
      destruct (update_all_cases T a b ps) as [(e & He) | (id & f & Hf & _ & Hrun)]
  end.
  - rewrite !He. reflexivity.
  - rewrite !Hrun. simpl.
    rewrite where_billid_twice; [reflexivity | ]. intros r. apply Hf.
Qed.

Example update_twice :
  let body :=
    obj [("billfrom", JStr "Internal Medicine Doctor"); ("billType", JStr "Medical");
         ("amountDue", JNum amount_56_15); ("dueDate", JStr "2025-09-15");
         ("amountPaid", JNum amount_15_57); ("datePaid", JStr "2025-08-10");
         ("paidBy", JStr "Visa")] in
  (fun r => (billfrom r, isPaid r, paidInFull r)) <$>
    bills (snd (updatebill Sample.io "1" body
                  (snd (updatebill Sample.io "1" body one_bill)))) !! 1
  = Some (Some "Internal Medicine Doctor", Some true, Some false).
Proof. vm_compute. reflexivity. Qed.

(** Whatever the request, a pay never takes "isPaid" away from a bill: the
    rows it writes have "isPaid" true. *)
Lemma paybill_keeps_isPaid (T : text_io) (billId : string) (body : object)
    (st : store) (n : Z) (r : bill) :
  bills st !! n = Some r -> isPaid r = Some true ->
  exists r', bills (snd (paybill T billId body st)) !! n = Some r'
             /\ isPaid r' = Some true.
Proof.
  intros Hr Hpaid. unfold paybill.
  destruct (paybill_sql_cases T (field body "amountPaid") (field body "amountDue"))
    as [-> | (b & ->)]; [now exists r | ].
  unfold pool_query.
  match goal with
  | |- context [update_payment T true b ?ps _] =>
      destruct (update_payment_cases T true b ps)
        as [(e & He) | (id & f & Hf & _ & Hrun)]
  end.
  - rewrite He. now exists r.
  - rewrite Hrun. destruct id as [k | ]; [ | now exists r].
    simpl. rewrite lookup_alter.
    destruct (decide (k = n)) as [-> | Hne]; [ | now exists r].
    rewrite Hr. exists (f r). split; [reflexivity | apply Hf].
Qed.

(** A payment in part on a bill that was paid in full does set "paidInFull"
    back to false; its amountPaid is above zero. *)
Example pay_in_part_after_full :
  (fun r => (isPaid r, paidInFull r)) <$>
    bills (run Sample.io [Pay "1" full_payment; Pay "1" partial_payment] one_bill) !! 1
  = Some (Some true, Some false).
Proof. vm_compute. reflexivity. Qed.

(** C10 (as the code has it).  A pay request whose amountPaid is absent,
    zero or negative selects no UPDATE ([sql] stays null); the query is
    refused, the reply is the error, and the table is left as it was, every
    bill with the flags it had.  No pay request at all turns "isPaid" back to
    false: a bill that is paid stays paid.  "paidInFull" is different: a
    payment above zero that differs from amountDue writes it as false. *)
Theorem C10_paybill_without_payment (T : text_io) (billId : string)
    (body : object) (st : store) :
  absent_zero_or_negative T (field body "amountPaid") ->
  paybill_sql T (field body "amountPaid") (field body "amountDue") = None
  /\ paybill T billId body st = (JsonError NullQuery, st)
  /\ (forall n r, bills st !! n = Some r ->
        exists r', bills (snd (paybill T billId body st)) !! n = Some r'
                   /\ isPaid r' = isPaid r /\ paidInFull r' = paidInFull r)
  /\ (forall (anyId : string) (anyBody : object) (anySt : store) (n : Z) (r : bill),
        bills anySt !! n = Some r -> isPaid r = Some true ->
        exists r', bills (snd (paybill T anyId anyBody anySt)) !! n = Some r'
                   /\ isPaid r' = Some true).
Proof.
  intros Hpaid. apply (not_positive_gt T) in Hpaid.
  assert (Hsql := paybill_sql_not_positive T _ (field body "amountDue") Hpaid).
  assert (Hrun : paybill T billId body st = (JsonError NullQuery, st))
    by (unfold paybill; now rewrite Hsql).
  split; [exact Hsql | ]. split; [exact Hrun | ]. split.
  - intros n r Hr. exists r. rewrite Hrun. simpl. auto.
  - intros anyId anyBody anySt n r. apply paybill_keeps_isPaid.
Qed.

Lemma C10_witness :
  absent_zero_or_negative Sample.io (field zero_text_payment "amountPaid")
  /\ bills paid_bill !! 1
     = Some (mkBill 1 (Some "Primary Care Doctor") (Some "Medical")
               (Some amount_56_15) (Some (mkDate 2025 9 15)) (Some true) (Some true)
               (Some amount_56_15) (Some (mkDate 2025 8 12)) (Some "Visa"))
  /\ paybill_sql Sample.io (field zero_text_payment "amountPaid")
       (field zero_text_payment "amountDue") = None
  /\ paybill Sample.io "1" zero_text_payment paid_bill = (JsonError NullQuery, paid_bill)
  /\ exists r', bills (snd (paybill Sample.io "1" partial_payment paid_bill)) !! 1
                = Some r'
                /\ isPaid r' = Some true.
Proof.
  assert (H : absent_zero_or_negative Sample.io (field zero_text_payment "amountPaid"))
    by (right; vm_compute; reflexivity).
  assert (Hrow : bills paid_bill !! 1
     = Some (mkBill 1 (Some "Primary Care Doctor") (Some "Medical")
               (Some amount_56_15) (Some (mkDate 2025 9 15)) (Some true) (Some true)
               (Some amount_56_15) (Some (mkDate 2025 8 12)) (Some "Visa")))
    by (vm_compute; reflexivity).
  destruct (C10_paybill_without_payment Sample.io "1" zero_text_payment paid_bill H)
    as (Hsql & Hrun & _ & Hkeep).
  split; [exact H | ]. split; [exact Hrow | ]. split; [exact Hsql | ].
  split; [exact Hrun | ].
  exact (Hkeep "1" partial_payment paid_bill 1 _ Hrow eq_refl).
Defined.

(** C10, the statement as the specification has it, fails in its last
    clause: bill 1 is paid in full, and a pay request for a part of the amount
    is answered with the confirmation and stores "paidInFull" false. *)
Lemma C10_payment_in_part_clears_paid_in_full :
  (paidInFull <$> bills paid_bill !! 1) = Some (Some true)
  /\ field partial_payment "amountPaid" = JNum amount_15_57
  /\ field partial_payment "amountDue" = JNum amount_56_15
  /\ fst (paybill Sample.io "1" partial_payment paid_bill)
     = Text 200 PaymentUpdated 1%float
  /\ (paidInFull <$> bills (snd (paybill Sample.io "1" partial_payment paid_bill)) !! 1)
     = Some (Some false)
  /\ (isPaid <$> bills (snd (paybill Sample.io "1" partial_payment paid_bill)) !! 1)
     = Some (Some true).
Proof. repeat split; vm_compute; reflexivity. Qed.

(** ** POST /addbill *)

Section AddBill.
Variable T : text_io.

(** A created bill holds, column by column, what the column types read
    from the nine members of the body, under the next value of the
    sequence. *)
Lemma addbill_created (body : object) (st st' : store) (r : bill) :
  addbill T body st = (Json 201 (Some r), st') ->
  st' = mkStore (<[billid_seq st := r]> (bills st)) (billid_seq st + 1)
  /\ billid r = billid_seq st
  /\ varchar_column T "billfrom" (field body "billfrom") = inr (billfrom r)
  /\ varchar_column T "billType" (field body "billType") = inr (billType r)
  /\ float8_column T "amountDue" (field body "amountDue") = inr (amountDue r)
  /\ date_column T "dueDate" (field body "dueDate") = inr (dueDate r)
  /\ bool_column T "isPaid" (field body "isPaid") = inr (isPaid r)
  /\ bool_column T "paidInFull" (field body "paidInFull") = inr (paidInFull r)
  /\ float8_column T "amountPaid" (field body "amountPaid") = inr (amountPaid r)
  /\ date_column T "datePaid" (field body "datePaid") = inr (datePaid r)
  /\ varchar_column T "paidBy" (field body "paidBy") = inr (paidBy r).
Proof.
  unfold addbill, pool_query, insert_bill.
  destruct (varchar_column T "billfrom" _) as [? | c1]; simpl; [discriminate | ].
  destruct (varchar_column T "billType" _) as [? | c2]; simpl; [discriminate | ].
  destruct (float8_column T "amountDue" _) as [? | c3]; simpl; [discriminate | ].
  destruct (date_column T "dueDate" _) as [? | c4]; simpl; [discriminate | ].
  destruct (bool_column T "isPaid" _) as [? | c5]; simpl; [discriminate | ].
  destruct (bool_column T "paidInFull" _) as [? | c6]; simpl; [discriminate | ].
  destruct (float8_column T "amountPaid" _) as [? | c7]; simpl; [discriminate | ].
  destruct (date_column T "datePaid" _) as [? | c8]; simpl; [discriminate | ].
  destruct (varchar_column T "paidBy" _) as [? | c9]; simpl; [discriminate | ].
  destruct (seq_maxvalue <? billid_seq st); [discriminate | ].
  destruct (bills st !! billid_seq st); [discriminate | ].
  simpl. intros [= <- <-]. simpl. repeat split.
Qed.

Lemma getbill_stored (billId : string) (n : Z) (st : store) :
  float_to_int4 (StringToNumber T billId) = Some n ->
  getbill T billId st = (Json 200 (bills st !! n), st).
Proof.
  intros Hid. unfold getbill, pool_query, select_one, int4_column.
  rewrite Hid. now destruct (bills st !! n).
Qed.

End AddBill.

(** C6 (as the code has it).  A successful add stores, for each of the five
    payment members, what its column reads from the value the request
    supplied, and getBill on the new id returns that same record.  The server
    neither fills a member in nor overrides it: a member the request leaves
    out is stored as NULL, a boolean flag, a Number amount, a date text and a
    payer text are stored as given.  In particular a request that carries
    amountPaid 0, isPaid false, paidInFull false, datePaid "9999-01-01" and
    an empty paidBy, as the body of the client's add form does, creates a bill
    with exactly these. *)
Theorem C6_addbill_keeps_supplied_defaults (T : text_io) (body : object)
    (st st' : store) (r : bill) (billId : string) :
  addbill T body st = (Json 201 (Some r), st') ->
  float_to_int4 (StringToNumber T billId) = Some (billid r) ->
  getbill T billId st' = (Json 200 (Some r), st')
  /\ (float8_column T "amountPaid" (field body "amountPaid") = inr (amountPaid r)
      /\ bool_column T "isPaid" (field body "isPaid") = inr (isPaid r)
      /\ bool_column T "paidInFull" (field body "paidInFull") = inr (paidInFull r)
      /\ date_column T "datePaid" (field body "datePaid") = inr (datePaid r)
      /\ varchar_column T "paidBy" (field body "paidBy") = inr (paidBy r))
  /\ ((field body "amountPaid" = JUndefined -> amountPaid r = None)
      /\ (field body "isPaid" = JUndefined -> isPaid r = None)
      /\ (field body "paidInFull" = JUndefined -> paidInFull r = None)
      /\ (field body "datePaid" = JUndefined -> datePaid r = None)
      /\ (field body "paidBy" = JUndefined -> paidBy r = None))
  /\ ((forall x, field body "amountPaid" = JNum x ->
         amountPaid r = Some (float_to_float8 x))
      /\ (forall b, field body "isPaid" = JBool b -> isPaid r = Some b)
      /\ (forall b, field body "paidInFull" = JBool b -> paidInFull r = Some b)
      /\ (forall s, field body "datePaid" = JStr s -> datePaid r = date_in T s)
      /\ (forall s, field body "paidBy" = JStr s -> paidBy r = Some s))
  /\ (field body "amountPaid" = JNum JS.zero ->
      field body "isPaid" = JBool false ->
      field body "paidInFull" = JBool false ->
      field body "datePaid" = JStr "9999-01-01" ->
      date_in T "9999-01-01" = Some sentinel_date ->
      field body "paidBy" = JStr "" ->
      amountPaid r = Some JS.zero
      /\ isPaid r = Some false
      /\ paidInFull r = Some false
      /\ datePaid r = Some sentinel_date
      /\ paidBy r = Some "").
Proof.
  intros Hadd Hid.
  destruct (addbill_created T body st st' r Hadd)
    as (-> & Hn & _ & _ & _ & _ & H5 & H6 & H7 & H8 & H9).
  assert (Hdate : forall s, field body "datePaid" = JStr s -> datePaid r = date_in T s).
  { intros s Hs. rewrite Hs in H8. unfold date_column, column_in in H8.
    simpl in H8. destruct (date_in T s); [now injection H8 | discriminate]. }
  assert (Hby : forall s, field body "paidBy" = JStr s -> paidBy r = Some s).
  { intros s Hs. rewrite Hs in H9. unfold varchar_column, column_in, varchar_in in H9.
    simpl in H9. destruct (has_nul s); [discriminate | now injection H9]. }
  assert (Hnum : forall x, field body "amountPaid" = JNum x ->
                           amountPaid r = Some (float_to_float8 x)).
  { intros x Hx. rewrite Hx in H7. simpl in H7. now injection H7. }
  assert (Hflag : forall b, field body "isPaid" = JBool b -> isPaid r = Some b).
  { intros b Hb. rewrite Hb in H5. simpl in H5. now injection H5. }
  assert (Hfull : forall b, field body "paidInFull" = JBool b -> paidInFull r = Some b).
  { intros b Hb. rewrite Hb in H6. simpl in H6. now injection H6. }
  split; [ | split; [ | split; [ | split]]].
  - rewrite (getbill_stored T billId (billid r) _ Hid). simpl.
    now rewrite Hn, lookup_insert_eq.
  - now repeat split.
  - repeat split; intros Hu.
    + rewrite Hu in H7. now injection H7.
    + rewrite Hu in H5. now injection H5.
    + rewrite Hu in H6. now injection H6.
    + rewrite Hu in H8. now injection H8.
    + rewrite Hu in H9. now injection H9.
  - now repeat split.
  - intros Ez Ef Ep Ed Hin Eb. repeat split.
    + now rewrite (Hnum _ Ez).
    + now apply Hflag.
    + now apply Hfull.
    + now rewrite (Hdate _ Ed).
    + now apply Hby.
Qed.

(** What the client's add form posts once the four inputs were typed: the
    typed texts, and the blank payment members. *)
Lemma add_form_body (from type due day : string) :
  let body :=
    Client.json_body
      (Client.billData
         (Client.handleChange "dueDate" day
            (Client.handleChange "amountDue" due
               (Client.handleChange "billType" type
                  (Client.handleChange "billfrom" from
                     (Client.mkUi Client.blank_billData "" true)))))) in
  field body "billfrom" = JStr from
  /\ field body "billType" = JStr type
  /\ field body "amountDue" = JStr due
  /\ field body "dueDate" = JStr day
  /\ field body "isPaid" = JBool false
  /\ field body "paidInFull" = JBool false
  /\ field body "amountPaid" = JNum JS.zero
  /\ field body "datePaid" = JStr "9999-01-01"
  /\ field body "paidBy" = JStr "".
Proof.
  simpl. unfold field, Client.json_body.
  repeat split; rewrite lookup_omap;
    repeat first [rewrite lookup_insert_eq | rewrite lookup_insert_ne by discriminate];
    reflexivity.
Qed.

Lemma C6_witness :
  addbill Sample.io (Client.json_body (Client.billData doctor_bill_form)) empty_store
  = (Json 201
       (Some (mkBill 1 (Some "Primary Care Doctor") (Some "Medical")
                (Some 56%float) (Some (mkDate 2025 9 15)) (Some false) (Some false)
                (Some JS.zero) (Some sentinel_date) (Some ""))),
     snd (addbill Sample.io (Client.json_body (Client.billData doctor_bill_form))
            empty_store))
  /\ getbill Sample.io "1"
       (snd (addbill Sample.io
               (Client.json_body (Client.billData doctor_bill_form)) empty_store))
     = (Json 200
          (Some (mkBill 1 (Some "Primary Care Doctor") (Some "Medical")
                   (Some 56%float) (Some (mkDate 2025 9 15)) (Some false) (Some false)
                   (Some JS.zero) (Some sentinel_date) (Some ""))),
        snd (addbill Sample.io
               (Client.json_body (Client.billData doctor_bill_form)) empty_store)).
Proof.
  assert (Hadd :
    addbill Sample.io (Client.json_body (Client.billData doctor_bill_form)) empty_store
    = (Json 201
         (Some (mkBill 1 (Some "Primary Care Doctor") (Some "Medical")
                  (Some 56%float) (Some (mkDate 2025 9 15)) (Some false) (Some false)
                  (Some JS.zero) (Some sentinel_date) (Some ""))),
       snd (addbill Sample.io (Client.json_body (Client.billData doctor_bill_form))
              empty_store)))
    by (vm_compute; reflexivity).
  split; [exact Hadd | ].
  exact (proj1 (C6_addbill_keeps_supplied_defaults Sample.io _ _ _ _ "1" Hadd eq_refl)).
Defined.

(** C6, the statement as the specification has it, fails: an add request
    that supplies payment members gets them stored, and getBill returns
    them. *)
Lemma C6_supplied_payment_is_stored :
  exists r st',
    addbill Sample.io prepaid_bill empty_store = (Json 201 (Some r), st')
    /\ getbill Sample.io "1" st' = (Json 200 (Some r), st')
    /\ amountPaid r = Some 25%float
    /\ isPaid r = Some true
    /\ paidInFull r = Some true
    /\ datePaid r = Some (mkDate 2025 8 12)
    /\ paidBy r = Some "Visa".
Proof.
  eexists _, _. split; [vm_compute; reflexivity | ].
  repeat split; vm_compute; reflexivity.
Qed.

(** The README's own add request, the four initial fields alone, leaves the
    payment columns NULL. *)
Example add_four_fields :
  fst (addbill Sample.io doctor_bill empty_store)
  = Json 201
      (Some (mkBill 1 (Some "Primary Care Doctor") (Some "Medical")
               (Some amount_56_15) (Some (mkDate 2025 9 15)) None None None None None)).
Proof. vm_compute. reflexivity. Qed.

(** ** The flags in a request body *)

Section BodyFlags.
Variable T : text_io.

Lemma paybill_ignores_member (k : string) (v : value) (billId : string)
    (body : object) (st : store) :
  k <> "amountDue" -> k <> "amountPaid" -> k <> "datePaid" -> k <> "paidBy" ->
  paybill T billId (<[k := v]> body) st = paybill T billId body st.
Proof.
  intros H1 H2 H3 H4. unfold paybill.
  now rewrite !field_insert_ne by assumption.
Qed.

Lemma updatebill_ignores_member (k : string) (v : value) (billId : string)
    (body : object) (st : store) :
  k <> "billfrom" -> k <> "billType" -> k <> "amountDue" -> k <> "dueDate" ->
  k <> "amountPaid" -> k <> "datePaid" -> k <> "paidBy" ->
  updatebill T billId (<[k := v]> body) st = updatebill T billId body st.
Proof.
  intros H1 H2 H3 H4 H5 H6 H7. unfold updatebill.
  now rewrite !field_insert_ne by assumption.
Qed.

End BodyFlags.

(** What a pay and an update request that are answered with the
    confirmation write into the two flags of the bill they name. *)
Section WrittenFlags.
Variable T : text_io.

Lemma updatebill_sql_flags (paid due : value) :
  updatebill_sql T paid due
  = Some (UpdateAll (JS.loose_eq (StringToNumber T) paid due
                     || JS.gt (StringToNumber T) paid JS.zero)
            (JS.loose_eq (StringToNumber T) paid due)).
Proof.
  unfold updatebill_sql.
  destruct (JS.loose_eq _ paid due); [reflexivity | ].
  now destruct (JS.gt _ paid JS.zero).
Qed.

(** On two Numbers the rule is the one of [spec_deriveStatus]. *)
Lemma spec_deriveStatus_of_numbers (due paid : float) :
  spec_deriveStatus_of T (JNum due) (JNum paid) = spec_deriveStatus due paid.
Proof. reflexivity. Qed.

Lemma written_row (id : option Z) (f : bill -> bill) (x : float) (n : Z)
    (r : bill) (st : store) :
  int4_column T "billid" (JNum x) = inr id ->
  float_to_int4 x = Some n -> bills st !! n = Some r ->
  bills (where_billid id f st) !! n = Some (f r).
Proof.
  intros Hcol Hid Hr.
  destruct (int4_column_number T x id Hcol) as (m & -> & Hm).
  assert (m = n) as -> by congruence.
  simpl. now rewrite lookup_alter_eq, Hr.
Qed.

Lemma paybill_written_flags (billId : string) (body : object) (st : store)
    (n : Z) (r : bill) :
  float_to_int4 (JS.parseInt billId) = Some n -> bills st !! n = Some r ->
  reports_success (fst (paybill T billId body st)) = true ->
  exists r', bills (snd (paybill T billId body st)) !! n = Some r'
    /\ isPaid r'
       = Some (fst (spec_deriveStatus_of T (field body "amountDue")
                      (field body "amountPaid")))
    /\ paidInFull r'
       = Some (snd (spec_deriveStatus_of T (field body "amountDue")
                      (field body "amountPaid"))).
Proof.
  intros Hid Hr. unfold spec_deriveStatus_of.
  destruct (JS.gt (StringToNumber T) (field body "amountPaid") JS.zero) eqn:Hgt.
  - unfold paybill. rewrite (paybill_sql_positive T _ _ Hgt). unfold pool_query.
    match goal with
    | |- context [update_payment T ?a ?b ?ps _] =>
        destruct (update_payment_cases T a b ps)
          as [(e & He) | (id & f & Hf & Hlast & Hrun)]
    end.
    + rewrite He. discriminate.
    + rewrite Hrun. simpl. intros _. exists (f r).
      split; [ | split; apply Hf].
      now apply (written_row id f (JS.parseInt billId)); [apply Hlast | | ].
  - unfold paybill. rewrite (paybill_sql_not_positive T _ _ Hgt). discriminate.
Qed.

Lemma updatebill_written_flags (billId : string) (body : object) (st : store)
    (n : Z) (r : bill) :
  float_to_int4 (JS.parseInt billId) = Some n -> bills st !! n = Some r ->
  reports_success (fst (updatebill T billId body st)) = true ->
  (JS.loose_eq (StringToNumber T) (field body "amountPaid") (field body "amountDue")
   = true ->
   JS.gt (StringToNumber T) (field body "amountPaid") JS.zero = true) ->
  exists r', bills (snd (updatebill T billId body st)) !! n = Some r'
    /\ isPaid r'
       = Some (fst (spec_deriveStatus_of T (field body "amountDue")
                      (field body "amountPaid")))
    /\ paidInFull r'
       = Some (snd (spec_deriveStatus_of T (field body "amountDue")
                      (field body "amountPaid"))).
Proof.
  intros Hid Hr Hok Hslip. revert Hok.
  unfold updatebill. rewrite updatebill_sql_flags. unfold pool_query.
  match goal with
  | |- context [update_all T ?a ?b ?ps _] =>
      destruct (update_all_cases T a b ps)
        as [(e & He) | (id & f & Hf & Hlast & Hrun)]
  end.
  - rewrite He. discriminate.
  - rewrite Hrun. simpl. intros _. exists (f r).
    split; [now apply (written_row id f (JS.parseInt billId)); [apply Hlast | | ] | ].
    destruct (Hf r) as (Ha & Hb & _). rewrite Ha, Hb.
    unfold spec_deriveStatus_of.
    destruct (JS.loose_eq _ (field body "amountPaid") (field body "amountDue")).
    + now rewrite (Hslip eq_refl).
    + now destruct (JS.gt _ (field body "amountPaid") JS.zero).
Qed.

End WrittenFlags.

(** C1 (as the code has it).  Pay and update requests ignore the isPaid and
    paidInFull members of the body: whatever values are put there, the reply
    and the table afterwards are the same, and the flags of the bill a
    confirmed request names are the ones the status rule derives from the
    amountPaid and amountDue of that request, for update unless amountPaid
    equals amountDue without being above zero.  An add request does not
    derive: the bill it creates stores the two members as the request gave
    them. *)
Theorem C1_supplied_flags (T : text_io) (billId : string) (body : object)
    (v w : value) (st : store) :
  let sent := <["isPaid" := v]> (<["paidInFull" := w]> body) in
  let derived :=
    spec_deriveStatus_of T (field body "amountDue") (field body "amountPaid") in
  paybill T billId sent st = paybill T billId body st
  /\ updatebill T billId sent st = updatebill T billId body st
  /\ (forall n r,
        float_to_int4 (JS.parseInt billId) = Some n -> bills st !! n = Some r ->
        reports_success (fst (paybill T billId sent st)) = true ->
        exists r', bills (snd (paybill T billId sent st)) !! n = Some r'
                   /\ isPaid r' = Some (fst derived)
                   /\ paidInFull r' = Some (snd derived))
  /\ (forall n r,
        float_to_int4 (JS.parseInt billId) = Some n -> bills st !! n = Some r ->
        reports_success (fst (updatebill T billId sent st)) = true ->
        (JS.loose_eq (StringToNumber T) (field body "amountPaid")
           (field body "amountDue") = true ->
         JS.gt (StringToNumber T) (field body "amountPaid") JS.zero = true) ->
        exists r', bills (snd (updatebill T billId sent st)) !! n = Some r'
                   /\ isPaid r' = Some (fst derived)
                   /\ paidInFull r' = Some (snd derived))
  /\ (forall r st',
        addbill T body st = (Json 201 (Some r), st') ->
        bool_column T "isPaid" (field body "isPaid") = inr (isPaid r)
        /\ bool_column T "paidInFull" (field body "paidInFull") = inr (paidInFull r)).
Proof.
  intros sent derived.
  assert (Hpay : paybill T billId sent st = paybill T billId body st)
    by (unfold sent; now rewrite !paybill_ignores_member by discriminate).
  assert (Hupd : updatebill T billId sent st = updatebill T billId body st)
    by (unfold sent; now rewrite !updatebill_ignores_member by discriminate).
  split; [exact Hpay | ]. split; [exact Hupd | ]. split; [ | split].
  - intros n r Hid Hr. rewrite Hpay. now apply paybill_written_flags with (r := r).
  - intros n r Hid Hr. rewrite Hupd. now apply updatebill_written_flags with (r := r).
  - intros r st' Hadd.
    destruct (addbill_created T body st st' r Hadd)
      as (_ & _ & _ & _ & _ & _ & H5 & H6 & _).
    now split.
Qed.

Lemma C1_witness :
  (exists r', bills (snd (paybill Sample.io "1" flagged_payment one_bill)) !! 1 = Some r'
              /\ isPaid r' = Some true /\ paidInFull r' = Some false)
  /\ (exists r', bills (snd (updatebill Sample.io "1" flagged_update paid_bill)) !! 1
                 = Some r'
                 /\ isPaid r' = Some false /\ paidInFull r' = Some false)
  /\ bool_column Sample.io "isPaid" (field flagged_bill "isPaid") = inr (Some true)
  /\ bool_column Sample.io "paidInFull" (field flagged_bill "paidInFull")
     = inr (Some true).
Proof.
  assert (Hadd :
    addbill Sample.io flagged_bill empty_store
    = (Json 201
         (Some (mkBill 1 (Some "Electric Company") (Some "Utility") (Some 120.5%float)
                  (Some (mkDate 2025 9 15)) (Some true) (Some true) (Some JS.zero)
                  (Some sentinel_date) (Some ""))),
       snd (addbill Sample.io flagged_bill empty_store)))
    by (vm_compute; reflexivity).
  split; [ | split].
  - destruct (C1_supplied_flags Sample.io "1" partial_payment (JBool false)
                (JBool true) one_bill) as (_ & _ & Hpay & _).
    destruct (Hpay 1 _ eq_refl one_bill_row) as (r' & Hr' & Ha & Hb);
      [vm_compute; reflexivity | ].
    exists r'. split; [exact Hr' | ]. split; [exact Ha | exact Hb].
  - destruct (C1_supplied_flags Sample.io "1" reset_update (JBool true)
                (JBool true) paid_bill) as (_ & _ & _ & Hupd & _).
    destruct (Hupd 1
                (mkBill 1 (Some "Primary Care Doctor") (Some "Medical")
                   (Some amount_56_15) (Some (mkDate 2025 9 15)) (Some true)
                   (Some true) (Some amount_56_15) (Some (mkDate 2025 8 12))
                   (Some "Visa")) eq_refl)
      as (r' & Hr' & Ha & Hb);
      [vm_compute; reflexivity | vm_compute; reflexivity | discriminate | ].
    exists r'. split; [exact Hr' | ]. split; [exact Ha | exact Hb].
  - exact (proj2 (proj2 (proj2 (proj2
             (C1_supplied_flags Sample.io "1" flagged_bill JNull JNull empty_store))))
             _ _ Hadd).
Defined.

(** C1, the statement as the specification has it, fails for add: the stored
    flags are the supplied ones, not the ones the rule derives from the
    amounts of the same request. *)
Lemma C1_add_stores_supplied_flags :
  exists r st',
    addbill Sample.io flagged_bill empty_store = (Json 201 (Some r), st')
    /\ bills st' !! 1 = Some r
    /\ field flagged_bill "amountDue" = JNum 120.5%float
    /\ field flagged_bill "amountPaid" = JNum JS.zero
    /\ (isPaid r, paidInFull r) = (Some true, Some true)
    /\ spec_deriveStatus 120.5%float JS.zero = (false, false).
Proof.
  eexists _, _. split; [vm_compute; reflexivity | ].
  repeat split; vm_compute; reflexivity.
Qed.

(** ** Requests for an id that is not in the table *)

Section AbsentId.
Variable T : text_io.

Lemma paybill_reply_and_table (billId : string) (body : object) :
  (exists e, forall st, paybill T billId body st = (JsonError e, st))
  \/ (exists id f,
        int4_column T "billid" (JNum (JS.parseInt billId)) = inr id
        /\ forall st, paybill T billId body st =
             (Text 200 PaymentUpdated (JS.parseInt billId), where_billid id f st)).
Proof.
  unfold paybill.
  destruct (paybill_sql_cases T (field body "amountPaid") (field body "amountDue"))
    as [-> | (b & ->)].
  - left. eexists. intros. reflexivity.
  - unfold pool_query.
    match goal with
    | |- context [update_payment T true b ?ps _] =>
        destruct (update_payment_cases T true b ps)
          as [(e & He) | (id & f & _ & Hid & Hrun)]
    end.
    + left. exists e. intros st. now rewrite He.
    + right. exists id, f. split; [now apply Hid | ].
      intros st. now rewrite Hrun.
Qed.

Lemma updatebill_reply_and_table (billId : string) (body : object) :
  (exists e, forall st, updatebill T billId body st = (JsonError e, st))
  \/ (exists id f,
        int4_column T "billid" (JNum (JS.parseInt billId)) = inr id
        /\ forall st, updatebill T billId body st =
             (Text 200 BillUpdated (JS.parseInt billId), where_billid id f st)).
Proof.
  unfold updatebill.
  destruct (updatebill_sql_cases T (field body "amountPaid") (field body "amountDue"))
    as (a & b & -> & _).
  unfold pool_query.
  match goal with
  | |- context [update_all T a b ?ps _] =>
      destruct (update_all_cases T a b ps)
        as [(e & He) | (id & f & _ & Hid & Hrun)]
  end.
  - left. exists e. intros st. now rewrite He.
  - right. exists id, f. split; [now apply Hid | ].
    intros st. now rewrite Hrun.
Qed.

Lemma deletebill_reply_and_table (billId : string) (st : store) :
  deletebill T billId st =
    match float_to_int4 (JS.parseInt billId) with
    | Some n =>
        (Text 200 BillDeleted (JS.parseInt billId),
         mkStore (delete n (bills st)) (billid_seq st))
    | None => (JsonError (InvalidText "billid"), st)
    end.
Proof.
  unfold deletebill, pool_query, delete_bill, int4_column.
  now destruct (float_to_int4 (JS.parseInt billId)).
Qed.

Lemma where_billid_no_such_bill (billId : string) (id : option Z)
    (f : bill -> bill) (st : store) :
  int4_column T "billid" (JNum (JS.parseInt billId)) = inr id ->
  no_such_bill billId st -> where_billid id f st = st.
Proof.
  intros Hcol Habsent. apply where_billid_absent. intros n ->.
  destruct (int4_column_number T _ _ Hcol) as (m & [= <-] & Hm).
  now apply Habsent.
Qed.

End AbsentId.

(** C4 (as the code has it).  For an id that matches no stored bill, pay,
    update and delete leave the table as it is and answer exactly as they
    answer the same request on any other table: there is no not-found
    outcome.  Delete answers with its confirmation whenever the id is an
    integer of the column's range. *)
Theorem C4_absent_id_is_not_reported (T : text_io) (billId : string)
    (body : object) (st : store) :
  no_such_bill billId st ->
  snd (paybill T billId body st) = st
  /\ snd (updatebill T billId body st) = st
  /\ snd (deletebill T billId st) = st
  /\ (forall st0,
        fst (paybill T billId body st) = fst (paybill T billId body st0)
        /\ fst (updatebill T billId body st) = fst (updatebill T billId body st0)
        /\ fst (deletebill T billId st) = fst (deletebill T billId st0))
  /\ (forall n, float_to_int4 (JS.parseInt billId) = Some n ->
        deletebill T billId st = (Text 200 BillDeleted (JS.parseInt billId), st)).
Proof.
  intros Habsent.
  assert (Hdel : snd (deletebill T billId st) = st).
  { rewrite deletebill_reply_and_table.
    destruct (float_to_int4 (JS.parseInt billId)) as [n | ] eqn:Hn; [ | reflexivity].
    simpl. destruct st as [m q]. simpl. f_equal. apply delete_id.
    now apply (Habsent n). }
  repeat split.
  - destruct (paybill_reply_and_table T billId body)
      as [(e & He) | (id & f & Hid & Hrun)].
    + now rewrite He.
    + rewrite Hrun. simpl. now apply (where_billid_no_such_bill T billId).
  - destruct (updatebill_reply_and_table T billId body)
      as [(e & He) | (id & f & Hid & Hrun)].
    + now rewrite He.
    + rewrite Hrun. simpl. now apply (where_billid_no_such_bill T billId).
  - exact Hdel.
  - destruct (paybill_reply_and_table T billId body)
      as [(e & He) | (id & f & Hid & Hrun)].
    + now rewrite !He.
    + now rewrite !Hrun.
  - destruct (updatebill_reply_and_table T billId body)
      as [(e & He) | (id & f & Hid & Hrun)].
    + now rewrite !He.
    + now rewrite !Hrun.
  - rewrite !deletebill_reply_and_table.
    now destruct (float_to_int4 (JS.parseInt billId)).
  - intros n Hn. rewrite deletebill_reply_and_table in Hdel |- *.
    rewrite Hn in Hdel |- *. simpl in Hdel. now rewrite Hdel.
Qed.

Lemma C4_witness :
  no_such_bill "7" one_bill
  /\ snd (paybill Sample.io "7" full_payment one_bill) = one_bill
  /\ deletebill Sample.io "7" one_bill
     = (Text 200 BillDeleted (JS.parseInt "7"), one_bill).
Proof.
  assert (H : no_such_bill "7" one_bill).
  { intros n Hn. vm_compute in Hn. injection Hn as <-. vm_compute. reflexivity. }
  split; [exact H | ].
  split.
  - exact (proj1 (C4_absent_id_is_not_reported Sample.io "7" full_payment one_bill H)).
  - apply (proj2 (proj2 (proj2 (proj2
             (C4_absent_id_is_not_reported Sample.io "7" full_payment one_bill H))))
             7).
    vm_compute. reflexivity.
Defined.

(** C4, the statement as the specification has it, fails: bill 7 is not in
    the table, and pay, update and delete all answer with their confirmation
    of success. *)
Lemma C4_absent_id_reports_success :
  bills one_bill !! 7 = None
  /\ paybill Sample.io "7" full_payment one_bill
     = (Text 200 PaymentUpdated 7%float, one_bill)
  /\ updatebill Sample.io "7" full_payment one_bill
     = (Text 200 BillUpdated 7%float, one_bill)
  /\ deletebill Sample.io "7" one_bill = (Text 200 BillDeleted 7%float, one_bill)
  /\ reports_success (fst (paybill Sample.io "7" full_payment one_bill)) = true
  /\ reports_success (fst (updatebill Sample.io "7" full_payment one_bill)) = true
  /\ reports_success (fst (deletebill Sample.io "7" one_bill)) = true.
Proof. repeat split; vm_compute; reflexivity. Qed.

(** ** The add form of the client *)

Lemma add_required_msg_not_empty :
  Nat.eqb (String.length Client.add_required_msg) 0 = false.
Proof. reflexivity. Qed.

(** C3 (as the code has it).  The check for the four required fields is
    made by the client's add form, not by the server.  When billfrom,
    billType, amountDue or dueDate of the form is empty, the Number zero or
    absent, submitting shows the one message that lists all four fields, sends
    no request, and the table is unchanged. *)
Theorem C3_form_refuses_incomplete_bill (T : text_io) (u : Client.ui) (st : store) :
  JS.truthy (field (Client.billData u) "billfrom") = false
  \/ JS.truthy (field (Client.billData u) "billType") = false
  \/ JS.truthy (field (Client.billData u) "amountDue") = false
  \/ JS.truthy (field (Client.billData u) "dueDate") = false ->
  Client.handleSubmit T u st
  = (Client.mkUi (Client.billData u) Client.add_required_msg (Client.isAddModalOpen u),
     st, None).
Proof.
  intros Hmissing. unfold Client.handleSubmit.
  assert (Hcheck :
    negb (JS.truthy (field (Client.billData u) "billfrom"))
    || negb (JS.truthy (field (Client.billData u) "billType"))
    || negb (JS.truthy (field (Client.billData u) "amountDue"))
    || negb (JS.truthy (field (Client.billData u) "dueDate")) = true).
  { destruct Hmissing as [-> | [-> | [-> | ->]]]; simpl;
      rewrite ?orb_true_r; reflexivity. }
  rewrite Hcheck, add_required_msg_not_empty. reflexivity.
Qed.

Lemma C3_witness :
  JS.truthy (field (Client.billData form_without_amount) "amountDue") = false
  /\ Client.handleSubmit Sample.io form_without_amount one_bill
     = (Client.mkUi (Client.billData form_without_amount) Client.add_required_msg true,
        one_bill, None).
Proof.
  split; [vm_compute; reflexivity | ].
  apply (C3_form_refuses_incomplete_bill Sample.io form_without_amount one_bill).
  right. right. left. vm_compute. reflexivity.
Defined.

(** C3, the statement as the specification has it, fails on the server: an
    add request with an empty billfrom and a zero amountDue is answered 201
    and the bill is created. *)
Lemma C3_server_adds_incomplete_bill :
  field bill_with_blanks "billfrom" = JStr ""
  /\ field bill_with_blanks "amountDue" = JNum JS.zero
  /\ exists r st',
       addbill Sample.io bill_with_blanks empty_store = (Json 201 (Some r), st')
       /\ bills empty_store !! 1 = None
       /\ bills st' !! 1 = Some r
       /\ billfrom r = Some ""
       /\ amountDue r = Some JS.zero.
Proof.
  split; [vm_compute; reflexivity | ]. split; [vm_compute; reflexivity | ].
  eexists _, _. split; [vm_compute; reflexivity | ].
  repeat split; vm_compute; reflexivity.
Qed.

(** With amountDue left out, the bill is created with a NULL amount. *)
Example add_without_amount :
  field bill_without_amount "amountDue" = JUndefined
  /\ exists r st',
       addbill Sample.io bill_without_amount empty_store = (Json 201 (Some r), st')
       /\ bills st' !! 1 = Some r
       /\ amountDue r = None.
Proof.
  split; [vm_compute; reflexivity | ].
  eexists _, _. split; [vm_compute; reflexivity | ].
  repeat split; vm_compute; reflexivity.
Qed.

(** ** paidInFull implies isPaid *)

Section FlagInvariant.
Variable T : text_io.

Lemma where_billid_keeps_invariant (a b : bool) (id : option Z)
    (f : bill -> bill) (st : store) :
  (b = true -> a = true) ->
  (forall r, isPaid (f r) = Some a /\ paidInFull (f r) = Some b /\ f (f r) = f r) ->
  paid_in_full_is_paid st -> paid_in_full_is_paid (where_billid id f st).
Proof.
  intros Hab Hf Hinv. destruct id as [k | ]; [ | exact Hinv].
  intros n r. unfold where_billid. simpl. rewrite lookup_alter.
  destruct (decide (k = n)) as [-> | Hne].
  - destruct (bills st !! n) as [r0 | ]; [ | discriminate].
    simpl. intros [= <-] Hfull.
    destruct (Hf r0) as (Hpaid & Hfull' & _).
    rewrite Hfull' in Hfull. injection Hfull as ->.
    now rewrite Hpaid, Hab.
  - apply Hinv.
Qed.

Lemma paybill_keeps_invariant (billId : string) (body : object) (st : store) :
  paid_in_full_is_paid st -> paid_in_full_is_paid (snd (paybill T billId body st)).
Proof.
  intros Hinv. unfold paybill.
  destruct (paybill_sql_cases T (field body "amountPaid") (field body "amountDue"))
    as [-> | (b & ->)]; [exact Hinv | ].
  unfold pool_query.
  match goal with
  | |- context [update_payment T true b ?ps _] =>
      destruct (update_payment_cases T true b ps)
        as [(e & He) | (id & f & Hf & _ & Hrun)]
  end.
  - now rewrite He.
  - rewrite Hrun. simpl. now apply (where_billid_keeps_invariant true b).
Qed.

Lemma updatebill_keeps_invariant (billId : string) (body : object) (st : store) :
  paid_in_full_is_paid st -> paid_in_full_is_paid (snd (updatebill T billId body st)).
Proof.
  intros Hinv. unfold updatebill.
  destruct (updatebill_sql_cases T (field body "amountPaid") (field body "amountDue"))
    as (a & b & -> & Hab).
  unfold pool_query.
  match goal with
  | |- context [update_all T a b ?ps _] =>
      destruct (update_all_cases T a b ps)
        as [(e & He) | (id & f & Hf & _ & Hrun)]
  end.
  - now rewrite He.
  - rewrite Hrun. simpl. now apply (where_billid_keeps_invariant a b).
Qed.

Lemma deletebill_keeps_invariant (billId : string) (st : store) :
  paid_in_full_is_paid st -> paid_in_full_is_paid (snd (deletebill T billId st)).
Proof.
  intros Hinv. rewrite deletebill_reply_and_table.
  destruct (float_to_int4 (JS.parseInt billId)) as [k | ]; [ | exact Hinv].
  intros n r. simpl. rewrite lookup_delete.
  destruct (decide (k = n)); [discriminate | apply Hinv].
Qed.

Lemma getbill_keeps_table (billId : string) (st : store) :
  snd (getbill T billId st) = st.
Proof.
  unfold getbill, pool_query, select_one.
  destruct (int4_column T "billid" _) as [? | [n | ]]; reflexivity.
Qed.

(** An add request either creates a bill or leaves the rows as they are. *)
Lemma addbill_cases (body : object) (st : store) :
  (exists r, addbill T body st =
               (Json 201 (Some r),
                mkStore (<[billid_seq st := r]> (bills st)) (billid_seq st + 1)))
  \/ (exists e, fst (addbill T body st) = JsonError e
                /\ bills (snd (addbill T body st)) = bills st).
Proof.
  unfold addbill, pool_query, insert_bill.
  repeat match goal with
  | |- context [bind_res ?col _] =>
      destruct col as [? | ?]; simpl; [right; eexists; split; reflexivity | ]
  end.
  destruct (seq_maxvalue <? billid_seq st);
    [right; eexists; split; reflexivity | ].
  destruct (bills st !! billid_seq st);
    [right; eexists; split; reflexivity | ].
  left. eexists. reflexivity.
Qed.

Lemma addbill_keeps_invariant (body : object) (st : store) :
  add_flags_consistent T (Add body) ->
  paid_in_full_is_paid st -> paid_in_full_is_paid (snd (addbill T body st)).
Proof.
  intros Hflags Hinv.
  destruct (addbill_cases body st) as [(r & Hadd) | (e & _ & Hsame)].
  - destruct (addbill_created T body st _ r Hadd)
      as (_ & _ & _ & _ & _ & _ & H5 & H6 & _).
    rewrite Hadd. intros n r'. simpl. rewrite lookup_insert.
    destruct (decide (billid_seq st = n)) as [_ | _]; [ | apply Hinv].
    intros [= <-] Hfull. simpl in Hflags.
    rewrite H5, H6, Hfull in Hflags.
    specialize (Hflags eq_refl). now injection Hflags.
  - intros n r. rewrite Hsame. apply Hinv.
Qed.

Lemma handle_keeps_invariant (rq : request) (st : store) :
  add_flags_consistent T rq ->
  paid_in_full_is_paid st -> paid_in_full_is_paid (snd (handle T rq st)).
Proof.
  destruct rq as [billId | body | billId body | billId body | billId];
    simpl; intros Hflags Hinv.
  - now rewrite getbill_keeps_table.
  - now apply addbill_keeps_invariant.
  - now apply paybill_keeps_invariant.
  - now apply updatebill_keeps_invariant.
  - now apply deletebill_keeps_invariant.
Qed.

Lemma run_keeps_invariant (rqs : list request) (st : store) :
  Forall (add_flags_consistent T) rqs ->
  paid_in_full_is_paid st -> paid_in_full_is_paid (run T rqs st).
Proof.
  intros Hall. revert st.
  induction Hall as [ | rq rqs Hrq _ IH]; intros st Hinv; [exact Hinv | ].
  apply IH. now apply handle_keeps_invariant.
Qed.

Lemma empty_store_invariant : paid_in_full_is_paid empty_store.
Proof. intros n r. simpl. now rewrite lookup_empty. Qed.

End FlagInvariant.

(** C5 (as the code has it).  In every table reached from the empty one by
    get, pay, update and delete requests and by add requests whose own
    paidInFull member does not say true while their isPaid member says
    otherwise, every bill with paidInFull true has isPaid true. *)
Theorem C5_paid_in_full_implies_paid (T : text_io) (rqs : list request)
    (n : Z) (r : bill) :
  Forall (add_flags_consistent T) rqs ->
  bills (run T rqs empty_store) !! n = Some r ->
  paidInFull r = Some true ->
  isPaid r = Some true.
Proof.
  intros Hall. apply (run_keeps_invariant T rqs empty_store Hall).
  apply empty_store_invariant.
Qed.

Lemma C5_witness :
  Forall (add_flags_consistent Sample.io) readme_session
  /\ bills (run Sample.io readme_session empty_store) !! 1
     = Some (mkBill 1 (Some "Internal Medicine Doctor") (Some "Medical")
               (Some amount_56_15) (Some (mkDate 2025 9 15)) (Some true) (Some true)
               (Some amount_56_15) (Some (mkDate 2025 8 12)) (Some "Visa"))
  /\ isPaid (mkBill 1 (Some "Internal Medicine Doctor") (Some "Medical")
               (Some amount_56_15) (Some (mkDate 2025 9 15)) (Some true) (Some true)
               (Some amount_56_15) (Some (mkDate 2025 8 12)) (Some "Visa"))
     = Some true.
Proof.
  assert (Hall : Forall (add_flags_consistent Sample.io) readme_session).
  { repeat constructor. intros Hfull. vm_compute in Hfull. discriminate Hfull. }
  assert (Hrow :
    bills (run Sample.io readme_session empty_store) !! 1
    = Some (mkBill 1 (Some "Internal Medicine Doctor") (Some "Medical")
              (Some amount_56_15) (Some (mkDate 2025 9 15)) (Some true) (Some true)
              (Some amount_56_15) (Some (mkDate 2025 8 12)) (Some "Visa")))
    by (vm_compute; reflexivity).
  split; [exact Hall | ]. split; [exact Hrow | ].
  exact (C5_paid_in_full_implies_paid Sample.io readme_session 1 _ Hall Hrow eq_refl).
Defined.

(** C5, the statement as the specification has it, fails: one add request
    from the empty table stores a bill that is paid in full and not paid. *)
Lemma C5_add_breaks_implication :
  exists r,
    bills (run Sample.io [Add full_not_paid_bill] empty_store) !! 1 = Some r
    /\ paidInFull r = Some true
    /\ isPaid r = Some false.
Proof. eexists. repeat split; vm_compute; reflexivity. Qed.

(** ** PATCH /updatebill with equal amounts *)

(** C2.  The update handler tests [amountPaid == amountDue] without the
    [amountPaid > 0] that the pay handler puts next to it: updating bill 1
    with both amounts zero stores isPaid = true and paidInFull = true, where
    the rule gives false and false. *)
Theorem C2_update_with_zero_amounts_marks_paid :
  field zero_amounts_update "amountPaid" = JNum JS.zero
  /\ field zero_amounts_update "amountDue" = JNum JS.zero
  /\ updatebill_sql Sample.io (JNum JS.zero) (JNum JS.zero) = Some (UpdateAll true true)
  /\ paybill_sql Sample.io (JNum JS.zero) (JNum JS.zero) = None
  /\ (fun r => (isPaid r, paidInFull r, amountPaid r)) <$>
       bills (snd (updatebill Sample.io "1" zero_amounts_update one_bill)) !! 1
     = Some (Some true, Some true, Some JS.zero)
  /\ spec_deriveStatus JS.zero JS.zero = (false, false).
Proof. repeat split; vm_compute; reflexivity. Qed.

(** The same happens for every [text_io] when both amounts are left out of
    the body ([undefined == undefined]), and does not happen when only the
    payment is left out. *)
Lemma updatebill_sql_both_absent (T : text_io) :
  updatebill_sql T JUndefined JUndefined = Some (UpdateAll true true).
Proof. reflexivity. Qed.

Lemma updatebill_sql_no_payment (T : text_io) (paid due : value) :
  JS.loose_eq (StringToNumber T) paid due = false ->
  JS.gt (StringToNumber T) paid JS.zero = false ->
  updatebill_sql T paid due = Some (UpdateAll false false).
Proof. intros Heq Hgt. unfold updatebill_sql. now rewrite Heq, Hgt. Qed.

Example update_without_amounts :
  (fun r => (isPaid r, paidInFull r, amountPaid r)) <$>
    bills (snd (updatebill Sample.io "1" no_amounts_update one_bill)) !! 1
  = Some (Some true, Some true, None).
Proof. vm_compute. reflexivity. Qed.

(** ** parseInt on an id segment *)

Section ParseInt.

Lemma decimal_digit_cases (c : ascii) :
  is_decimal_digit c = true ->
  In c ["0"; "1"; "2"; "3"; "4"; "5"; "6"; "7"; "8"; "9"]%char.
Proof.
  destruct c as [[] [] [] [] [] [] [] []]; vm_compute; intros H;
    try discriminate H; auto 12.
Qed.

Lemma decimal_digit_not_x (c : ascii) :
  is_decimal_digit c = true ->
  negb (Ascii.eqb c "x") && negb (Ascii.eqb c "X") = true.
Proof.
  intros H. apply decimal_digit_cases in H. simpl in H.
  repeat (destruct H as [<- | H]; [reflexivity | ]). contradiction.
Qed.

(** After a leading digit that does not open a hexadecimal prefix, parseInt
    reads in radix 10 from that digit on. *)
Lemma parseInt_decimal_start (c : ascii) (rest : string) :
  is_decimal_digit c = true ->
  match rest with
  | String c2 _ => negb (Ascii.eqb c2 "x") && negb (Ascii.eqb c2 "X")
  | EmptyString => true
  end = true ->
  JS.parseInt (String c rest) =
    match JS.digits_prefix 10 (String c rest) None with
    | None => JS.nan
    | Some 0 => JS.zero
    | Some m => JS.of_Z m
    end.
Proof.
  intros Hc Hx. apply decimal_digit_cases in Hc. simpl in Hc.
  destruct Hc as [<- | Hc].
  - destruct rest as [ | c2 r]; [reflexivity | ].
    destruct c2 as [[] [] [] [] [] [] [] []];
      first [discriminate Hx | reflexivity].
  - repeat (destruct Hc as [<- | Hc]; [reflexivity | ]). contradiction.
Qed.

Lemma digits_prefix_stops (rest : string) (acc : option Z) :
  not_part_of_number rest = true -> JS.digits_prefix 10 rest acc = acc.
Proof.
  destruct rest as [ | c r]; [reflexivity | ].
  unfold not_part_of_number, is_decimal_digit. simpl.
  destruct (JS.digit_value 10 c); [discriminate | reflexivity].
Qed.

Lemma digits_prefix_app (digits rest : string) (acc : option Z) :
  all_decimal digits = true ->
  not_part_of_number rest = true ->
  JS.digits_prefix 10 (digits ++ rest) acc = JS.digits_prefix 10 digits acc.
Proof.
  revert acc. induction digits as [ | c ds IH]; intros acc Hall Hstop.
  - simpl. now apply digits_prefix_stops.
  - simpl in Hall |- *. apply andb_prop in Hall as [_ Hds].
    destruct (JS.digit_value 10 c); [now apply IH | reflexivity].
Qed.

(** What follows the digits of an id segment is discarded. *)
Lemma parseInt_discards_rest (digits rest : string) :
  decimal_digits digits = true ->
  not_part_of_number rest = true ->
  JS.parseInt (digits ++ rest) = JS.parseInt digits.
Proof.
  intros Hdigits Hstop.
  destruct digits as [ | c ds]; [discriminate | ].
  simpl in Hdigits. apply andb_prop in Hdigits as [Hc Hds].
  assert (Hall : all_decimal (String c ds) = true)
    by (simpl; now rewrite Hc, Hds).
  change (String c ds ++ rest)%string with (String c (ds ++ rest)).
  rewrite !parseInt_decimal_start; try assumption.
  - change (String c (ds ++ rest)) with (String c ds ++ rest)%string.
    now rewrite digits_prefix_app.
  - destruct ds as [ | c2 ds']; [reflexivity | ].
    simpl in Hds. apply andb_prop in Hds as [Hc2 _].
    now apply decimal_digit_not_x.
  - destruct ds as [ | c2 ds'].
    + simpl. destruct rest as [ | c3 r]; [reflexivity | ].
      simpl in Hstop. rewrite <- andb_assoc in Hstop.
      now apply andb_prop in Hstop as [_ Hx].
    + simpl in Hds |- *. apply andb_prop in Hds as [Hc2 _].
      now apply decimal_digit_not_x.
Qed.

Lemma float_to_int4_nan : float_to_int4 JS.nan = None.
Proof. reflexivity. Qed.

End ParseInt.

(** C9 (as the code has it).  The id segment is never rejected as invalid.
    Pay, update and delete read it with parseInt: a segment made of decimal
    digits followed by other text is served exactly as the digits alone, and
    a segment from which parseInt reads no number reaches the store as NaN,
    which the store refuses, so the reply is the store's error and the table
    is unchanged.  Get reads the segment with Number and queries the store
    with the result. *)
Theorem C9_id_segment_is_coerced (T : text_io) (digits rest other : string)
    (body : object) (st : store) :
  decimal_digits digits = true ->
  not_part_of_number rest = true ->
  JS.parseInt other = JS.nan ->
  (paybill T (digits ++ rest) body st = paybill T digits body st
   /\ updatebill T (digits ++ rest) body st = updatebill T digits body st
   /\ deletebill T (digits ++ rest) st = deletebill T digits st)
  /\ ((exists e, paybill T other body st = (JsonError e, st))
      /\ (exists e, updatebill T other body st = (JsonError e, st))
      /\ deletebill T other st = (JsonError (InvalidText "billid"), st))
  /\ getbill T other st =
       (match float_to_int4 (StringToNumber T other) with
        | Some n => Json 200 (bills st !! n)
        | None => JsonError (InvalidText "billid")
        end, st).
Proof.
  intros Hdigits Hstop Hnan.
  split; [ | split].
  - unfold paybill, updatebill, deletebill.
    now rewrite (parseInt_discards_rest digits rest Hdigits Hstop).
  - repeat split.
    + destruct (paybill_reply_and_table T other body)
        as [(e & He) | (id & f & Hid & _)]; [now exists e | ].
      rewrite Hnan in Hid. discriminate Hid.
    + destruct (updatebill_reply_and_table T other body)
        as [(e & He) | (id & f & Hid & _)]; [now exists e | ].
      rewrite Hnan in Hid. discriminate Hid.
    + rewrite deletebill_reply_and_table. now rewrite Hnan.
  - unfold getbill, pool_query, select_one, int4_column.
    destruct (float_to_int4 (StringToNumber T other)) as [n | ]; [ | reflexivity].
    now destruct (bills st !! n).
Qed.

Lemma C9_witness :
  paybill Sample.io ("1" ++ "abc") full_payment one_bill
    = paybill Sample.io "1" full_payment one_bill
  /\ deletebill Sample.io "abc" one_bill = (JsonError (InvalidText "billid"), one_bill).
Proof.
  assert (H := C9_id_segment_is_coerced Sample.io "1" "abc" "abc" full_payment one_bill
                 eq_refl eq_refl eq_refl).
  split.
  - exact (proj1 (proj1 H)).
  - exact (proj2 (proj2 (proj1 (proj2 H)))).
Defined.

(** C9, the statement as the specification has it, fails: the segments
    "1abc" and "1.9" are not positive integers, and a pay request on either
    is carried out on bill 1; get on " 1" returns bill 1. *)
Lemma C9_malformed_id_is_served :
  (isPaid <$> bills one_bill !! 1) = Some (Some false)
  /\ fst (paybill Sample.io "1abc" full_payment one_bill)
     = Text 200 PaymentUpdated 1%float
  /\ (isPaid <$> bills (snd (paybill Sample.io "1abc" full_payment one_bill)) !! 1)
     = Some (Some true)
  /\ fst (paybill Sample.io "1.9" full_payment one_bill)
     = Text 200 PaymentUpdated 1%float
  /\ (isPaid <$> bills (snd (paybill Sample.io "1.9" full_payment one_bill)) !! 1)
     = Some (Some true)
  /\ fst (getbill Sample.io " 1" one_bill) = Json 200 (bills one_bill !! 1)
  /\ bills (snd (deletebill Sample.io "1abc" one_bill)) !! 1 = None.
Proof. repeat split; vm_compute; reflexivity. Qed.

(* ===================================================================== *)
(** * Further properties of the server *)

(** ** What pay, update and delete write *)

Section Writes.
Variable T : text_io.

Ltac no_write := left; eexists; intros; reflexivity.

Ltac read_column c :=
  match goal with
  | |- context [bind_res ?col _] =>
      destruct col as [? | c] eqn:?; simpl; [no_write | ]
  end.

(** An accepted payment UPDATE rewrites the payment columns and the two
    flags of one billid and nothing else of that row. *)
Lemma update_payment_shape (a b : bool) (params : list value) :
  (exists e, forall st, update_payment T a b params st = (QError e, st))
  \/ (exists id f,
        (forall r, bill_details (f r) = bill_details r /\ isPaid (f r) = Some a)
        /\ (forall p, last params = Some p -> int4_column T "billid" p = inr id)
        /\ forall st, update_payment T a b params st = (QRows [], where_billid id f st)).
Proof.
  unfold update_payment.
  destruct params as [ | p1 [ | p2 [ | p3 [ | p4 [ | ? ?]]]]]; try no_write.
  read_column c1. read_column c2. read_column c3. read_column key.
  right. eexists _, _. split; [ | split; [ | intros; reflexivity]].
  - intros r. split; reflexivity.
  - intros p [= <-]. assumption.
Qed.

(** An accepted full UPDATE writes a row that, but for its billid, is made
    from the parameters alone. *)
Lemma update_all_shape (a b : bool) (params : list value) :
  (exists e, forall st, update_all T a b params st = (QError e, st))
  \/ (exists id f,
        (forall r, billid (f r) = billid r)
        /\ (forall r r', billid r = billid r' -> f r = f r')
        /\ (forall p, last params = Some p -> int4_column T "billid" p = inr id)
        /\ forall st, update_all T a b params st = (QRows [], where_billid id f st)).
Proof.
  unfold update_all.
  destruct params
    as [ | p1 [ | p2 [ | p3 [ | p4 [ | p5 [ | p6 [ | p7 [ | p8 [ | ? ?]]]]]]]]];
    try no_write.
  read_column c1. read_column c2. read_column c3. read_column c4.
  read_column c5. read_column c6. read_column c7. read_column key.
  right. eexists _, _. split; [ | split; [ | split; [ | intros; reflexivity]]].
  - intros r. reflexivity.
  - intros r r' Hid. simpl. now rewrite Hid.
  - intros p [= <-]. assumption.
Qed.

(** The pay handler either answers with an error and writes nothing, or
    rewrites the row of the integer read from the id segment. *)
Lemma paybill_writes (billId : string) (body : object) :
  (exists e, forall st, paybill T billId body st = (JsonError e, st))
  \/ (exists n f,
        float_to_int4 (JS.parseInt billId) = Some n
        /\ (forall r, bill_details (f r) = bill_details r /\ isPaid (f r) = Some true)
        /\ forall st, paybill T billId body st =
             (Text 200 PaymentUpdated (JS.parseInt billId),
              mkStore (alter f n (bills st)) (billid_seq st))).
Proof.
  unfold paybill.
  destruct (paybill_sql_cases T (field body "amountPaid") (field body "amountDue"))
    as [-> | (b & ->)]; [no_write | ].
  unfold pool_query.
  match goal with
  | |- context [update_payment T true b ?ps _] =>
      destruct (update_payment_shape true b ps)
        as [(e & He) | (id & f & Hf & Hid & Hrun)]
  end.
  - left. exists e. intros st. now rewrite He.
  - destruct (int4_column_number T _ _ (Hid _ eq_refl)) as (n & -> & Hn).
    right. exists n, f. repeat split; try apply Hf; [exact Hn | ].
    intros st. now rewrite Hrun.
Qed.

Lemma updatebill_writes (billId : string) (body : object) :
  (exists e, forall st, updatebill T billId body st = (JsonError e, st))
  \/ (exists n f,
        float_to_int4 (JS.parseInt billId) = Some n
        /\ (forall r, billid (f r) = billid r)
        /\ (forall r r', billid r = billid r' -> f r = f r')
        /\ forall st, updatebill T billId body st =
             (Text 200 BillUpdated (JS.parseInt billId),
              mkStore (alter f n (bills st)) (billid_seq st))).
Proof.
  unfold updatebill.
  destruct (updatebill_sql_cases T (field body "amountPaid") (field body "amountDue"))
    as (a & b & -> & _).
  unfold pool_query.
  match goal with
  | |- context [update_all T a b ?ps _] =>
      destruct (update_all_shape a b ps)
        as [(e & He) | (id & f & Hf1 & Hf2 & Hid & Hrun)]
  end.
  - left. exists e. intros st. now rewrite He.
  - destruct (int4_column_number T _ _ (Hid _ eq_refl)) as (n & -> & Hn).
    right. exists n, f. repeat split; try assumption.
    intros st. now rewrite Hrun.
Qed.

End Writes.

(** X1.  Pay, update and delete concern one bill: every bill whose id is not
    the integer read from the id segment is the same afterwards. *)
Theorem other_bills_untouched (T : text_io) (billId : string) (body : object)
    (st : store) (m : Z) :
  float_to_int4 (JS.parseInt billId) <> Some m ->
  bills (snd (paybill T billId body st)) !! m = bills st !! m
  /\ bills (snd (updatebill T billId body st)) !! m = bills st !! m
  /\ bills (snd (deletebill T billId st)) !! m = bills st !! m.
Proof.
  intros Hother. repeat split.
  - destruct (paybill_writes T billId body) as [(e & He) | (n & f & Hn & _ & Hrun)].
    + now rewrite He.
    + rewrite Hrun. simpl. apply lookup_alter_ne. congruence.
  - destruct (updatebill_writes T billId body)
      as [(e & He) | (n & f & Hn & _ & _ & Hrun)].
    + now rewrite He.
    + rewrite Hrun. simpl. apply lookup_alter_ne. congruence.
  - rewrite deletebill_reply_and_table.
    destruct (float_to_int4 (JS.parseInt billId)) as [n | ]; [ | reflexivity].
    simpl. apply lookup_delete_ne. congruence.
Qed.

Lemma other_bills_untouched_witness :
  float_to_int4 (JS.parseInt "2") <> Some 1
  /\ bills (snd (deletebill Sample.io "2" one_bill)) !! 1 = bills one_bill !! 1.
Proof.
  assert (H : float_to_int4 (JS.parseInt "2") <> Some 1)
    by (vm_compute; discriminate).
  split; [exact H | ].
  exact (proj2 (proj2 (other_bills_untouched Sample.io "2" full_payment one_bill 1 H))).
Defined.

(** X2.  A pay request never removes a bill and never changes its billid,
    billfrom, billType, amountDue or dueDate: the amountDue of the request is
    only compared, not stored. *)
Theorem paybill_keeps_details (T : text_io) (billId : string) (body : object)
    (st : store) (n : Z) (r : bill) :
  bills st !! n = Some r ->
  exists r', bills (snd (paybill T billId body st)) !! n = Some r'
             /\ bill_details r' = bill_details r.
Proof.
  intros Hr.
  destruct (paybill_writes T billId body) as [(e & He) | (k & f & _ & Hf & Hrun)].
  - rewrite He. now exists r.
  - rewrite Hrun. simpl. rewrite lookup_alter.
    destruct (decide (k = n)) as [-> | _]; [ | now exists r].
    rewrite Hr. exists (f r). split; [reflexivity | apply Hf].
Qed.

Lemma paybill_keeps_details_witness :
  bills one_bill !! 1 =
    Some (mkBill 1 (Some "Primary Care Doctor") (Some "Medical") (Some amount_56_15)
            (Some (mkDate 2025 9 15)) (Some false) (Some false) (Some JS.zero)
            (Some sentinel_date) (Some ""))
  /\ exists r', bills (snd (paybill Sample.io "1"
                              (<["amountDue" := JNum 1%float]> partial_payment)
                              one_bill)) !! 1 = Some r'
                /\ bill_details r'
                   = (1, Some "Primary Care Doctor", Some "Medical",
                      Some amount_56_15, Some (mkDate 2025 9 15)).
Proof.
  assert (H : bills one_bill !! 1 =
    Some (mkBill 1 (Some "Primary Care Doctor") (Some "Medical") (Some amount_56_15)
            (Some (mkDate 2025 9 15)) (Some false) (Some false) (Some JS.zero)
            (Some sentinel_date) (Some "")))
    by (vm_compute; reflexivity).
  split; [exact H | ].
  exact (paybill_keeps_details Sample.io "1"
           (<["amountDue" := JNum 1%float]> partial_payment) one_bill 1 _ H).
Defined.

(** X3.  Pay and update never create or remove a bill and never touch the
    sequence: the set of ids in the table and the next id are the same
    afterwards. *)
Theorem pay_and_update_keep_ids (T : text_io) (billId : string) (body : object)
    (st : store) :
  dom (bills (snd (paybill T billId body st))) = dom (bills st)
  /\ billid_seq (snd (paybill T billId body st)) = billid_seq st
  /\ dom (bills (snd (updatebill T billId body st))) = dom (bills st)
  /\ billid_seq (snd (updatebill T billId body st)) = billid_seq st.
Proof.
  destruct (paybill_writes T billId body) as [(e & He) | (n & f & _ & _ & Hrun)];
    destruct (updatebill_writes T billId body)
      as [(e' & He') | (n' & f' & _ & _ & _ & Hrun')];
    rewrite ?He, ?He', ?Hrun, ?Hrun'; simpl;
    rewrite ?dom_alter_L; auto.
Qed.

(** X4.  An accepted update overrides what came before for that bill: after
    a pay or an update on the same id segment, an update that is accepted
    leaves the table exactly as it would have without them. *)
Theorem updatebill_overrides (T : text_io) (billId : string)
    (before body : object) (st : store) :
  reports_success (fst (updatebill T billId body st)) = true ->
  snd (updatebill T billId body (snd (paybill T billId before st)))
    = snd (updatebill T billId body st)
  /\ snd (updatebill T billId body (snd (updatebill T billId before st)))
    = snd (updatebill T billId body st).
Proof.
  intros Hok.
  destruct (updatebill_writes T billId body)
    as [(e & He) | (n & f & Hn & Hid & Hconst & Hrun)].
  { rewrite He in Hok. discriminate Hok. }
  assert (Habsorb : forall g : bill -> bill,
            (forall r, billid (g r) = billid r) ->
            alter f n (alter g n (bills st)) = alter f n (bills st)).
  { intros g Hg. rewrite alter_alter_eq. apply alter_ext.
    intros r _. simpl. apply Hconst, Hg. }
  split.
  - destruct (paybill_writes T billId before)
      as [(e & He) | (k & g & Hk & Hg & Hpay)].
    + now rewrite He.
    + rewrite Hpay, !Hrun. simpl. f_equal.
      assert (k = n) as -> by congruence.
      apply Habsorb. intros r. destruct (Hg r) as [Hd _].
      now injection Hd.
  - destruct (updatebill_writes T billId before)
      as [(e & He) | (k & g & Hk & Hg & _ & Hup)].
    + now rewrite He.
    + rewrite Hup, !Hrun. simpl. f_equal.
      assert (k = n) as -> by congruence.
      now apply Habsorb.
Qed.

Lemma updatebill_overrides_witness :
  reports_success (fst (updatebill Sample.io "1" zero_amounts_update one_bill)) = true
  /\ snd (updatebill Sample.io "1" zero_amounts_update
            (snd (paybill Sample.io "1" full_payment one_bill)))
     = snd (updatebill Sample.io "1" zero_amounts_update one_bill).
Proof.
  assert (H : reports_success
                (fst (updatebill Sample.io "1" zero_amounts_update one_bill)) = true)
    by (vm_compute; reflexivity).
  split; [exact H | ].
  exact (proj1 (updatebill_overrides Sample.io "1" full_payment zero_amounts_update
                  one_bill H)).
Defined.

(** ** The ids the sequence hands out *)

Section Ids.
Variable T : text_io.

(** The three ways an add request can end. *)
Lemma addbill_outcomes (body : object) (st : store) :
  (exists e, addbill T body st = (JsonError e, st))
  \/ (billid_seq st <= seq_maxvalue
      /\ is_Some (bills st !! billid_seq st)
      /\ addbill T body st =
           (JsonError UniqueViolation, mkStore (bills st) (billid_seq st + 1)))
  \/ (exists r,
        billid_seq st <= seq_maxvalue
        /\ bills st !! billid_seq st = None
        /\ billid r = billid_seq st
        /\ addbill T body st =
             (Json 201 (Some r),
              mkStore (<[billid_seq st := r]> (bills st)) (billid_seq st + 1))).
Proof.
  unfold addbill, pool_query, insert_bill.
  repeat match goal with
  | |- context [bind_res ?col _] =>
      destruct col as [? | ?]; simpl; [left; eexists; reflexivity | ]
  end.
  destruct (seq_maxvalue <? billid_seq st) eqn:Hmax;
    [left; eexists; reflexivity | ].
  apply Z.ltb_ge in Hmax.
  destruct (bills st !! billid_seq st) as [r0 | ] eqn:Hrow.
  - right. left. repeat split; [exact Hmax | now exists r0].
  - right. right. eexists. repeat split; [exact Hmax | reflexivity].
Qed.

Lemma addbill_keeps_well_keyed (body : object) (st : store) :
  well_keyed st -> well_keyed (snd (addbill T body st)).
Proof.
  intros [Hseq Hrows].
  destruct (addbill_outcomes body st)
    as [(e & ->) | [(Hmax & _ & ->) | (r & Hmax & Hfree & Hid & ->)]]; simpl.
  - now split.
  - split; simpl; [lia | ]. intros n r Hr.
    destruct (Hrows n r Hr). split; [assumption | lia].
  - split; simpl; [lia | ]. intros n r'. rewrite lookup_insert.
    destruct (decide (billid_seq st = n)) as [<- | _].
    + intros [= <-]. split; [assumption | lia].
    + intros Hr. destruct (Hrows n r' Hr). split; [assumption | lia].
Qed.

Lemma alter_keeps_well_keyed (f : bill -> bill) (k : Z) (st : store) :
  (forall r, billid (f r) = billid r) ->
  well_keyed st -> well_keyed (mkStore (alter f k (bills st)) (billid_seq st)).
Proof.
  intros Hf [Hseq Hrows]. split; [exact Hseq | ].
  intros n r. simpl. rewrite lookup_alter.
  destruct (decide (k = n)) as [-> | _]; [ | apply Hrows].
  destruct (bills st !! n) as [r0 | ] eqn:Hr0; [ | discriminate].
  simpl. intros [= <-]. rewrite Hf. now apply Hrows.
Qed.

Lemma handle_keeps_well_keyed (rq : request) (st : store) :
  well_keyed st -> well_keyed (snd (handle T rq st)).
Proof.
  intros Hwk. destruct rq as [billId | body | billId body | billId body | billId];
    simpl.
  - now rewrite getbill_keeps_table.
  - now apply addbill_keeps_well_keyed.
  - destruct (paybill_writes T billId body) as [(e & ->) | (n & f & _ & Hf & ->)];
      [exact Hwk | ].
    simpl. apply alter_keeps_well_keyed; [ | exact Hwk].
    intros r. destruct (Hf r) as [Hd _]. now injection Hd.
  - destruct (updatebill_writes T billId body)
      as [(e & ->) | (n & f & _ & Hf & _ & ->)]; [exact Hwk | ].
    simpl. now apply alter_keeps_well_keyed.
  - rewrite deletebill_reply_and_table.
    destruct (float_to_int4 (JS.parseInt billId)) as [k | ]; [ | exact Hwk].
    destruct Hwk as [Hseq Hrows]. split; [exact Hseq | ].
    intros n r. simpl. rewrite lookup_delete.
    destruct (decide (k = n)); [discriminate | apply Hrows].
Qed.

Lemma empty_store_well_keyed : well_keyed empty_store.
Proof.
  split; [unfold seq_maxvalue; simpl; lia | ].
  intros n r. simpl. now rewrite lookup_empty.
Qed.

Lemma run_keeps_well_keyed (rqs : list request) (st : store) :
  well_keyed st -> well_keyed (run T rqs st).
Proof.
  revert st. induction rqs as [ | rq rqs IH]; intros st Hwk; [exact Hwk | ].
  apply IH. now apply handle_keeps_well_keyed.
Qed.

(** The sequence never goes back. *)
Lemma handle_advances_sequence (rq : request) (st : store) :
  billid_seq st <= billid_seq (snd (handle T rq st)).
Proof.
  destruct rq as [billId | body | billId body | billId body | billId]; simpl.
  - now rewrite getbill_keeps_table.
  - destruct (addbill_outcomes body st)
      as [(e & ->) | [(_ & _ & ->) | (r & _ & _ & _ & ->)]]; simpl; lia.
  - destruct (paybill_writes T billId body) as [(e & ->) | (n & f & _ & _ & ->)];
      simpl; lia.
  - destruct (updatebill_writes T billId body)
      as [(e & ->) | (n & f & _ & _ & _ & ->)]; simpl; lia.
  - rewrite deletebill_reply_and_table.
    destruct (float_to_int4 (JS.parseInt billId)); simpl; lia.
Qed.

Lemma run_advances_sequence (rqs : list request) (st : store) :
  billid_seq st <= billid_seq (run T rqs st).
Proof.
  revert st. induction rqs as [ | rq rqs IH]; intros st; [simpl; lia | ].
  simpl. etransitivity; [apply (handle_advances_sequence rq) | apply IH].
Qed.

End Ids.

(** X5.  In every table the server reaches from the empty one, each bill is
    stored under its own billid, the ids in use lie between 1 and the last
    value the sequence handed out, and the sequence has not passed its
    maximum of 2000000. *)
Theorem reachable_tables_well_keyed (T : text_io) (rqs : list request) :
  well_keyed (run T rqs empty_store).
Proof. apply run_keeps_well_keyed, empty_store_well_keyed. Qed.

(** X6.  A billid is never handed out twice: the id of a newly added bill is
    larger than the id of every bill that was ever in the table before, also
    of bills deleted since. *)
Theorem billid_never_reused (T : text_io) (earlier later : list request)
    (body : object) (n : Z) (old new : bill) (st' : store) :
  bills (run T earlier empty_store) !! n = Some old ->
  addbill T body (run T (earlier ++ later) empty_store) = (Json 201 (Some new), st') ->
  n < billid new.
Proof.
  intros Hold Hadd.
  destruct (run_keeps_well_keyed T earlier empty_store empty_store_well_keyed)
    as [_ Hrows].
  destruct (Hrows n old Hold) as [_ [_ Hlt]].
  destruct (addbill_created T body _ st' new Hadd) as (_ & -> & _).
  unfold run in *. rewrite fold_left_app.
  eapply Z.lt_le_trans; [exact Hlt | ].
  apply (run_advances_sequence T later).
Qed.

Lemma billid_never_reused_witness :
  bills (run Sample.io [Add flagged_bill] empty_store) !! 1
  = Some (mkBill 1 (Some "Electric Company") (Some "Utility") (Some 120.5%float)
            (Some (mkDate 2025 9 15)) (Some true) (Some true) (Some JS.zero)
            (Some sentinel_date) (Some ""))
  /\ 1 < billid (mkBill 2 (Some "Electric Company") (Some "Utility")
                   (Some 120.5%float) (Some (mkDate 2025 9 15)) (Some true)
                   (Some true) (Some 25%float) (Some (mkDate 2025 8 12))
                   (Some "Visa")).
Proof.
  assert (H1 : bills (run Sample.io [Add flagged_bill] empty_store) !! 1
    = Some (mkBill 1 (Some "Electric Company") (Some "Utility") (Some 120.5%float)
              (Some (mkDate 2025 9 15)) (Some true) (Some true) (Some JS.zero)
              (Some sentinel_date) (Some "")))
    by (vm_compute; reflexivity).
  split; [exact H1 | ].
  apply (billid_never_reused Sample.io [Add flagged_bill] [Delete "1"] prepaid_bill 1
           _ _ (snd (addbill Sample.io prepaid_bill
                       (run Sample.io ([Add flagged_bill] ++ [Delete "1"]) empty_store)))
           H1).
  vm_compute. reflexivity.
Defined.

(** X7.  Once the sequence has passed its maximum, no bill can be added:
    the request is answered with an error and the table is unchanged. *)
Theorem addbill_sequence_exhausted (T : text_io) (body : object) (st : store) :
  seq_maxvalue < billid_seq st ->
  exists e, addbill T body st = (JsonError e, st).
Proof.
  intros Hmax.
  destruct (addbill_outcomes T body st)
    as [(e & He) | [(Hle & _) | (r & Hle & _)]]; [now exists e | lia | lia].
Qed.

Lemma addbill_sequence_exhausted_witness :
  seq_maxvalue < billid_seq (mkStore (bills one_bill) 2000001)
  /\ exists e, addbill Sample.io prepaid_bill (mkStore (bills one_bill) 2000001)
               = (JsonError e, mkStore (bills one_bill) 2000001).
Proof.
  assert (H : seq_maxvalue < billid_seq (mkStore (bills one_bill) 2000001))
    by (vm_compute; reflexivity).
  split; [exact H | ].
  exact (addbill_sequence_exhausted Sample.io prepaid_bill _ H).
Defined.

(** X8.  In a table the server reached from the empty one, an add request
    that is answered with an error has changed nothing, neither a row nor the
    sequence. *)
Theorem failed_add_changes_nothing (T : text_io) (rqs : list request)
    (body : object) (e : pg_error) :
  fst (addbill T body (run T rqs empty_store)) = JsonError e ->
  snd (addbill T body (run T rqs empty_store)) = run T rqs empty_store.
Proof.
  intros Hfail.
  destruct (run_keeps_well_keyed T rqs empty_store empty_store_well_keyed)
    as [_ Hrows].
  destruct (addbill_outcomes T body (run T rqs empty_store))
    as [(e' & He) | [(_ & [r Hr] & _) | (r & _ & _ & _ & Hok)]].
  - now rewrite He.
  - destruct (Hrows _ r Hr) as [_ [_ Hlt]]. lia.
  - rewrite Hok in Hfail. discriminate Hfail.
Qed.

Lemma failed_add_changes_nothing_witness :
  fst (addbill Sample.io (<["dueDate" := JStr "not a date"]> prepaid_bill)
         (run Sample.io [Add flagged_bill] empty_store))
  = JsonError (InvalidText "dueDate")
  /\ snd (addbill Sample.io (<["dueDate" := JStr "not a date"]> prepaid_bill)
            (run Sample.io [Add flagged_bill] empty_store))
     = run Sample.io [Add flagged_bill] empty_store.
Proof.
  assert (H : fst (addbill Sample.io (<["dueDate" := JStr "not a date"]> prepaid_bill)
                     (run Sample.io [Add flagged_bill] empty_store))
              = JsonError (InvalidText "dueDate"))
    by (vm_compute; reflexivity).
  split; [exact H | ].
  exact (failed_add_changes_nothing Sample.io [Add flagged_bill] _ _ H).
Defined.

(** ** Reading the table *)

(** X9.  After a delete the bill is gone: a get for the same integer is
    answered 200 with no row. *)
Theorem deleted_bill_is_gone (T : text_io) (billId getId : string) (n : Z)
    (st : store) :
  float_to_int4 (JS.parseInt billId) = Some n ->
  float_to_int4 (StringToNumber T getId) = Some n ->
  getbill T getId (snd (deletebill T billId st))
  = (Json 200 None, snd (deletebill T billId st)).
Proof.
  intros Hdel Hget.
  rewrite (getbill_stored T getId n _ Hget).
  rewrite deletebill_reply_and_table, Hdel. simpl.
  now rewrite lookup_delete_eq.
Qed.

Lemma deleted_bill_is_gone_witness :
  getbill Sample.io "1" (snd (deletebill Sample.io "1" one_bill))
  = (Json 200 None, snd (deletebill Sample.io "1" one_bill)).
Proof.
  apply (deleted_bill_is_gone Sample.io "1" "1" 1 one_bill); vm_compute; reflexivity.
Defined.

(** X10.  Delete is idempotent: a second delete of the same id segment gets
    the same reply and changes nothing more. *)
Theorem deletebill_idempotent (T : text_io) (billId : string) (st : store) :
  deletebill T billId (snd (deletebill T billId st)) = deletebill T billId st.
Proof.
  rewrite !deletebill_reply_and_table.
  destruct (float_to_int4 (JS.parseInt billId)) as [n | ]; [ | reflexivity].
  simpl. now rewrite delete_delete_eq.
Qed.

Section ListBills.

#[local] Instance billid_le_total : Total billid_le.
Proof. intros a b. unfold billid_le. lia. Qed.

#[local] Instance billid_le_trans : Transitive billid_le.
Proof. intros a b c. unfold billid_le. lia. Qed.

Lemma merge_sort_ascending (rows : list bill) :
  StronglySorted billid_le (merge_sort billid_le rows).
Proof. apply (StronglySorted_merge_sort billid_le). Qed.

Lemma ascending_without_ties (rows : list bill) :
  StronglySorted billid_le rows ->
  NoDup (billid <$> rows) ->
  StronglySorted (fun a b => billid a < billid b) rows.
Proof.
  induction 1 as [ | r rows Hrows IH Hall]; intros Hnodup; constructor.
  - apply IH. simpl in Hnodup. now apply NoDup_cons in Hnodup.
  - simpl in Hnodup. apply NoDup_cons in Hnodup as [Hfresh _].
    apply Forall_forall. intros r' Hin.
    rewrite Forall_forall in Hall. specialize (Hall r' Hin). unfold billid_le in Hall.
    assert (billid r <> billid r'); [ | lia].
    intros Heq. apply Hfresh. rewrite Heq. now apply list_elem_of_fmap_2.
Qed.

Lemma stored_rows (st : store) (r : bill) :
  r ∈ (snd <$> map_to_list (bills st)) <-> exists n, bills st !! n = Some r.
Proof.
  rewrite list_elem_of_fmap. split.
  - intros ([n r'] & -> & Hin). exists n. now apply elem_of_map_to_list.
  - intros (n & Hr). exists (n, r). split; [reflexivity | ].
    now apply elem_of_map_to_list.
Qed.

Lemma well_keyed_ids (st : store) :
  well_keyed st ->
  billid <$> (snd <$> map_to_list (bills st)) = fst <$> map_to_list (bills st).
Proof.
  intros [_ Hrows]. rewrite <- list_fmap_compose.
  apply list_fmap_ext. intros i [n r] Hin. simpl.
  apply list_elem_of_lookup_2, elem_of_map_to_list in Hin.
  now apply Hrows.
Qed.

End ListBills.

(** X11.  GET /bills on a table the server reached from the empty one is
    answered 200 with every stored bill exactly once, in strictly ascending
    order of billid, and leaves the table as it is. *)
Theorem getbills_lists_all_in_order (T : text_io) (rqs : list request) :
  exists rows,
    getbills (run T rqs empty_store) = (JsonRows 200 rows, run T rqs empty_store)
    /\ StronglySorted (fun a b => billid a < billid b) rows
    /\ (forall r, r ∈ rows <-> exists n, bills (run T rqs empty_store) !! n = Some r)
    /\ length rows = size (bills (run T rqs empty_store)).
Proof.
  set (st := run T rqs empty_store).
  assert (Hwk : well_keyed st)
    by apply run_keeps_well_keyed, empty_store_well_keyed.
  exists (merge_sort billid_le (snd <$> map_to_list (bills st))).
  assert (Hperm := merge_sort_Permutation billid_le (snd <$> map_to_list (bills st))).
  split; [reflexivity | ]. split; [ | split].
  - apply ascending_without_ties.
    + apply merge_sort_ascending.
    + rewrite Hperm, (well_keyed_ids st Hwk). apply NoDup_fst_map_to_list.
  - intros r. rewrite Hperm. apply stored_rows.
  - rewrite Hperm, length_fmap. apply length_map_to_list.
Qed.

Example list_after_delete :
  (fun rp => match rp with JsonRows _ rows => billid <$> rows | _ => [] end)
    (fst (getbills (run Sample.io
                      [Add flagged_bill; Add prepaid_bill; Add full_not_paid_bill;
                       Delete "2"] empty_store)))
  = [1; 3].
Proof. vm_compute. reflexivity. Qed.

(** X12.  GET /bills/amountPaid/:billId after a payment was recorded returns
    the amount the table now holds for that bill. *)
Theorem amount_paid_after_payment (T : text_io) (billId : string) (n : Z)
    (body : object) (st : store) (r : bill) (paid : option float)
    (day : option date) (payer : option string) :
  float_to_int4 (JS.parseInt billId) = Some n ->
  bills st !! n = Some r ->
  JS.gt (StringToNumber T) (field body "amountPaid") JS.zero = true ->
  float8_column T "amountPaid" (field body "amountPaid") = inr paid ->
  date_column T "datePaid" (field body "datePaid") = inr day ->
  varchar_column T "paidBy" (field body "paidBy") = inr payer ->
  getamountpaid T billId (snd (paybill T billId body st))
  = (JsonAmount 200 (Some paid), snd (paybill T billId body st)).
Proof.
  intros Hid Hr Hpos Hpaid Hday Hby.
  rewrite (paybill_positive_payment T billId n body st r paid day payer
             Hid Hr Hpos Hpaid Hday Hby).
  unfold getamountpaid, select_amount_paid, int4_column. rewrite Hid. simpl.
  now rewrite lookup_insert_eq.
Qed.

Lemma amount_paid_after_payment_witness :
  getamountpaid Sample.io "1" (snd (paybill Sample.io "1" partial_payment one_bill))
  = (JsonAmount 200 (Some (Some amount_15_57)),
     snd (paybill Sample.io "1" partial_payment one_bill)).
Proof.
  apply (amount_paid_after_payment Sample.io "1" 1 partial_payment one_bill
           (mkBill 1 (Some "Primary Care Doctor") (Some "Medical") (Some amount_56_15)
              (Some (mkDate 2025 9 15)) (Some false) (Some false) (Some JS.zero)
              (Some sentinel_date) (Some ""))
           (Some amount_15_57) (Some (mkDate 2025 8 10)) (Some "Visa"));
    vm_compute; reflexivity.
Defined.

(* ===================================================================== *)
(** * Further properties of the client *)

(** ** What a form posts *)

Section Posting.
Variable T : text_io.

Lemma field_json_body (o : object) (k : string) :
  field (Client.json_body o) k =
    match Client.json_value (field o k) with
    | Some v => v
    | None => JUndefined
    end.
Proof.
  unfold field, Client.json_body. rewrite lookup_omap.
  destruct (o !! k) as [v | ]; simpl; [ | reflexivity].
  now destruct (Client.json_value v).
Qed.

Lemma eq_zero_not_gt_zero (x : float) :
  PrimFloat.eqb x JS.zero = true -> PrimFloat.ltb JS.zero x = false.
Proof.
  rewrite FloatAxioms.ltb_spec, FloatAxioms.eqb_spec, Prim2SF_zero.
  unfold SFltb, SFeqb, SFcompare.
  destruct (Prim2SF x) as [s | s | | s m e]; try destruct s; simpl; congruence.
Qed.

(** A value that is not above zero is not above zero after its way through
    JSON either. *)
Lemma json_body_not_positive (o : object) (k : string) :
  JS.gt (StringToNumber T) (field o k) JS.zero = false ->
  JS.gt (StringToNumber T) (field (Client.json_body o) k) JS.zero = false.
Proof.
  rewrite field_json_body. destruct (field o k) as [ | | b | x | t]; simpl; auto.
  intros Hgt. unfold JS.gt in *. simpl in *.
  destruct (Client.is_finite x); [ | reflexivity]. simpl.
  destruct (PrimFloat.eqb x JS.zero) eqn:Hzero; [reflexivity | exact Hgt].
Qed.

Lemma truthy_text (t : string) : t <> "" -> JS.truthy (JStr t) = true.
Proof.
  intros Hne. simpl. destruct (String.eqb_spec t ""); [contradiction | reflexivity].
Qed.

End Posting.

(** X13.  The pay form refuses an incomplete payment itself: when amountPaid,
    datePaid or paidBy of the form is empty, the Number zero or absent, it
    shows its message, sends no request, and the table is unchanged. *)
Theorem pay_form_refuses_incomplete_payment (T : text_io) (to_char : date -> string)
    (s : App.state) (st : store) :
  JS.truthy (field (App.billData s) "amountPaid") = false
  \/ JS.truthy (field (App.billData s) "datePaid") = false
  \/ JS.truthy (field (App.billData s) "paidBy") = false ->
  App.handlePaySubmit T to_char s st
  = (App.setErrorMsg App.pay_required_msg s, st, None).
Proof.
  intros Hmissing. unfold App.handlePaySubmit.
  assert (Hcheck :
    negb (JS.truthy (field (App.billData s) "amountPaid"))
    || negb (JS.truthy (field (App.billData s) "datePaid"))
    || negb (JS.truthy (field (App.billData s) "paidBy")) = true).
  { destruct Hmissing as [-> | [-> | ->]]; simpl; rewrite ?orb_true_r; reflexivity. }
  rewrite Hcheck. reflexivity.
Qed.

Lemma pay_form_refuses_incomplete_payment_witness :
  JS.truthy (field (App.billData App.initial) "amountPaid") = false
  /\ App.handlePaySubmit Sample.io sample_to_char App.initial one_bill
     = (App.setErrorMsg App.pay_required_msg App.initial, one_bill, None).
Proof.
  split; [vm_compute; reflexivity | ].
  apply (pay_form_refuses_incomplete_payment Sample.io sample_to_char App.initial
           one_bill).
  left. vm_compute. reflexivity.
Defined.

(** X14.  A payment that passes the form's check but is not above zero (the
    text "0", a negative amount) is posted, refused by the server and not
    written; the form closes all the same, cleared and without an error
    message. *)
Theorem pay_form_hides_refused_payment (T : text_io) (to_char : date -> string)
    (s : App.state) (st : store) :
  JS.truthy (field (App.billData s) "amountPaid") = true ->
  JS.truthy (field (App.billData s) "datePaid") = true ->
  JS.truthy (field (App.billData s) "paidBy") = true ->
  JS.gt (StringToNumber T) (field (App.billData s) "amountPaid") JS.zero = false ->
  exists s',
    App.handlePaySubmit T to_char s st = (s', st, Some (JsonError NullQuery))
    /\ App.isPayModalOpen s' = false
    /\ App.errorMsg s' = ""
    /\ App.billData s' = Client.blank_billData.
Proof.
  intros Hpaid Hday Hby Hgt. unfold App.handlePaySubmit.
  rewrite Hpaid, Hday, Hby. simpl.
  unfold paybill.
  rewrite (paybill_sql_not_positive T _ _ (json_body_not_positive T _ _ Hgt)).
  simpl. eexists. repeat split.
Qed.

Lemma pay_form_hides_refused_payment_witness :
  exists s',
    App.handlePaySubmit Sample.io sample_to_char
      (App.handleChange "paidBy" "Visa"
         (App.handleChange "datePaid" "2025-08-12"
            (App.handleChange "amountPaid" "0"
               (App.handleUpdate
                  (App.row_object sample_to_char
                     (unpaid_bill 1 "Primary Care Doctor" "Medical" 56%float
                        (mkDate 2025 9 15)))
                  App.initial))))
      one_bill
    = (s', one_bill, Some (JsonError NullQuery))
    /\ App.isPayModalOpen s' = false
    /\ App.errorMsg s' = ""
    /\ App.billData s' = Client.blank_billData.
Proof.
  apply (pay_form_hides_refused_payment Sample.io sample_to_char); vm_compute;
    reflexivity.
Defined.

(** X15.  The update form refuses an incomplete bill itself: when billfrom,
    billType, amountDue or dueDate of the form is empty, the Number zero or
    absent, it shows its message, sends no request, and the table is
    unchanged. *)
Theorem update_form_refuses_incomplete_bill (T : text_io) (to_char : date -> string)
    (s : App.state) (st : store) :
  JS.truthy (field (App.billData s) "billfrom") = false
  \/ JS.truthy (field (App.billData s) "billType") = false
  \/ JS.truthy (field (App.billData s) "amountDue") = false
  \/ JS.truthy (field (App.billData s) "dueDate") = false ->
  App.handleUpdateSubmit T to_char s st
  = (App.setErrorMsg App.update_required_msg s, st, None).
Proof.
  intros Hmissing. unfold App.handleUpdateSubmit.
  assert (Hcheck :
    negb (JS.truthy (field (App.billData s) "billfrom"))
    || negb (JS.truthy (field (App.billData s) "billType"))
    || negb (JS.truthy (field (App.billData s) "amountDue"))
    || negb (JS.truthy (field (App.billData s) "dueDate")) = true).
  { destruct Hmissing as [-> | [-> | [-> | ->]]]; simpl;
      rewrite ?orb_true_r; reflexivity. }
  rewrite Hcheck. reflexivity.
Qed.

Lemma update_form_refuses_incomplete_bill_witness :
  JS.truthy (field (App.billData (App.handleChange "billfrom" "" App.initial))
               "billfrom") = false
  /\ App.handleUpdateSubmit Sample.io sample_to_char
       (App.handleChange "billfrom" "" App.initial) one_bill
     = (App.setErrorMsg App.update_required_msg
          (App.handleChange "billfrom" "" App.initial), one_bill, None).
Proof.
  split; [vm_compute; reflexivity | ].
  apply (update_form_refuses_incomplete_bill Sample.io sample_to_char).
  left. vm_compute. reflexivity.
Defined.

(** X16.  The add form posts nothing for a bill that already has a billid:
    with the four fields filled in and a billid in its data, submitting only
    closes and clears the form; the table is unchanged. *)
Theorem add_form_skips_existing_bill (T : text_io) (u : Client.ui) (st : store) :
  JS.truthy (field (Client.billData u) "billfrom") = true ->
  JS.truthy (field (Client.billData u) "billType") = true ->
  JS.truthy (field (Client.billData u) "amountDue") = true ->
  JS.truthy (field (Client.billData u) "dueDate") = true ->
  JS.truthy (field (Client.billData u) "billid") = true ->
  Client.handleSubmit T u st = (Client.mkUi Client.blank_billData "" false, st, None).
Proof.
  intros H1 H2 H3 H4 Hid. unfold Client.handleSubmit.
  rewrite H1, H2, H3, H4, Hid. reflexivity.
Qed.

Lemma add_form_skips_existing_bill_witness :
  Client.handleSubmit Sample.io
    (Client.mkUi
       (App.row_object sample_to_char
          (unpaid_bill 1 "Primary Care Doctor" "Medical" 56%float (mkDate 2025 9 15)))
       "" true)
    one_bill
  = (Client.mkUi Client.blank_billData "" false, one_bill, None).
Proof.
  apply (add_form_skips_existing_bill Sample.io); vm_compute; reflexivity.
Defined.

(** ** The add form, end to end *)

Lemma typed_add_form_fields (from type due day : string) :
  let o := Client.billData (typed_add_form from type due day) in
  field o "billfrom" = JStr from
  /\ field o "billType" = JStr type
  /\ field o "amountDue" = JStr due
  /\ field o "dueDate" = JStr day
  /\ field o "billid" = JUndefined.
Proof.
  simpl. unfold field.
  repeat split;
    repeat first [rewrite lookup_insert_eq | rewrite lookup_insert_ne by discriminate];
    reflexivity.
Qed.

(** X17.  Submitting the add form with four non-empty inputs that the
    column types accept (a name and a type without the code unit 0, an
    amount and a date the columns read) creates the bill under the next id of
    the sequence, unpaid: amountPaid 0, both flags false, the far-future
    datePaid and an empty paidBy.  The form closes, cleared. *)
Theorem add_form_creates_unpaid_bill (T : text_io) (from type due day : string)
    (amount : float) (due_day : date) (st : store) :
  from <> "" -> type <> "" -> due <> "" -> day <> "" ->
  has_nul from = false -> has_nul type = false ->
  float8in T due = Some amount ->
  date_in T day = Some due_day ->
  date_in T "9999-01-01" = Some sentinel_date ->
  billid_seq st <= seq_maxvalue ->
  bills st !! billid_seq st = None ->
  Client.handleSubmit T (typed_add_form from type due day) st
  = (Client.mkUi Client.blank_billData "" false,
     mkStore
       (<[billid_seq st := unpaid_bill (billid_seq st) from type amount due_day]>
          (bills st))
       (billid_seq st + 1),
     Some (Json 201 (Some (unpaid_bill (billid_seq st) from type amount due_day)))).
Proof.
  intros Hfrom Htype Hdue Hday Hnul_from Hnul_type Hamount Hdate Hsentinel Hmax Hfree.
  pose proof (typed_add_form_fields from type due day) as F. cbv zeta in F.
  destruct F as (F1 & F2 & F3 & F4 & F5).
  pose proof (add_form_body from type due day) as B. cbv zeta in B.
  fold (typed_add_form from type due day) in B.
  destruct B as (B1 & B2 & B3 & B4 & B5 & B6 & B7 & B8 & B9).
  unfold Client.handleSubmit.
  rewrite F1, F2, F3, F4, F5.
  rewrite !truthy_text by assumption.
  cbn -[typed_add_form addbill Client.json_body field].
  unfold addbill.
  rewrite B1, B2, B3, B4, B5, B6, B7, B8, B9.
  unfold pool_query, insert_bill, varchar_column, float8_column, date_column,
    bool_column, column_in, varchar_in, prepareValue, bind_res.
  rewrite Hnul_from, Hnul_type, Hamount, Hdate, Hsentinel.
  apply Z.ltb_ge in Hmax. rewrite Hmax, Hfree. reflexivity.
Qed.

Lemma add_form_creates_unpaid_bill_witness :
  Client.handleSubmit Sample.io
    (typed_add_form "Primary Care Doctor" "Medical" "56" "2025-09-15") empty_store
  = (Client.mkUi Client.blank_billData "" false,
     mkStore
       (<[1 := unpaid_bill 1 "Primary Care Doctor" "Medical" 56%float
                 (mkDate 2025 9 15)]> ∅)
       2,
     Some (Json 201
             (Some (unpaid_bill 1 "Primary Care Doctor" "Medical" 56%float
                      (mkDate 2025 9 15))))).
Proof.
  apply (add_form_creates_unpaid_bill Sample.io "Primary Care Doctor" "Medical" "56"
           "2025-09-15" 56%float (mkDate 2025 9 15) empty_store);
    first [discriminate | vm_compute; reflexivity | vm_compute; discriminate].
Defined.

(** ** Deleting from the list *)

(** X18.  After a confirmed delete the reloaded page lists exactly the
    bills that were stored under another id; a delete that is not confirmed
    sends nothing and leaves the table as it is. *)
Theorem handleDelete_reloads_list (T : text_io) (to_char : date -> string)
    (billId : value) (n : Z) (st : store) :
  float_to_int4 (JS.parseInt (App.ToString T billId)) = Some n ->
  (exists rows,
     App.handleDelete T to_char true billId st
     = (App.mkState (App.row_object to_char <$> rows)
                    (App.row_object to_char <$> rows)
                    false false false Client.blank_billData "",
        mkStore (delete n (bills st)) (billid_seq st),
        Some (Text 200 BillDeleted (JS.parseInt (App.ToString T billId))))
     /\ forall r, r ∈ rows <-> exists k, k <> n /\ bills st !! k = Some r)
  /\ snd (fst (App.handleDelete T to_char false billId st)) = st
  /\ snd (App.handleDelete T to_char false billId st) = None.
Proof.
  intros Hid. split; [ | split; reflexivity].
  unfold App.handleDelete. rewrite deletebill_reply_and_table, Hid.
  eexists. split; [reflexivity | ].
  intros r.
  rewrite (merge_sort_Permutation billid_le), stored_rows. simpl. split.
  - intros (k & Hk). apply lookup_delete_Some in Hk as [Hne Hk]. now exists k.
  - intros (k & Hne & Hk). exists k. apply lookup_delete_Some. now split.
Qed.

Lemma handleDelete_reloads_list_witness :
  float_to_int4 (JS.parseInt (App.ToString Sample.io (JNum 1%float))) = Some 1
  /\ snd (fst (App.handleDelete Sample.io sample_to_char true (JNum 1%float) one_bill))
     = mkStore (delete 1 (bills one_bill)) (billid_seq one_bill).
Proof.
  assert (H : float_to_int4 (JS.parseInt (App.ToString Sample.io (JNum 1%float)))
              = Some 1) by (vm_compute; reflexivity).
  split; [exact H | ].
  destruct (proj1 (handleDelete_reloads_list Sample.io sample_to_char (JNum 1%float) 1
                     one_bill H)) as (rows & Hrun & _).
  rewrite Hrun. reflexivity.
Defined.

(** ** Searching the list *)

Section Search.
Variable T : text_io.

Lemma lower_unit_twice (c : ascii) : App.lower_unit (App.lower_unit c) = App.lower_unit c.
Proof. destruct c as [[] [] [] [] [] [] [] []]; reflexivity. Qed.

Lemma toLowerCase_twice (s : string) :
  App.toLowerCase (App.toLowerCase s) = App.toLowerCase s.
Proof.
  induction s as [ | c s IH]; [reflexivity | ].
  simpl. now rewrite lower_unit_twice, IH.
Qed.

Lemma includes_empty (s : string) : App.includes s "" = true.
Proof. destruct s; reflexivity. Qed.

(** One bill that makes the predicate throw makes the filter throw. *)
Lemma filter_bills_throws (keep : object -> option bool) (l : list object)
    (b : object) :
  b ∈ l -> keep b = None -> App.filter_bills keep l = None.
Proof.
  intros Hin Hthrow. induction l as [ | a l IH]; [now apply elem_of_nil in Hin | ].
  simpl. apply elem_of_cons in Hin as [<- | Hin].
  - now rewrite Hthrow.
  - destruct (keep a); [ | reflexivity]. now rewrite (IH Hin).
Qed.

Lemma filter_bills_keeps_all (keep : object -> option bool) (l : list object) :
  (forall b, b ∈ l -> keep b = Some true) -> App.filter_bills keep l = Some l.
Proof.
  induction l as [ | a l IH]; intros Hall; [reflexivity | ].
  simpl. rewrite (Hall a) by apply list_elem_of_here.
  rewrite IH; [reflexivity | ].
  intros b Hb. apply Hall. now apply list_elem_of_further.
Qed.

Lemma row_object_billfrom (to_char : date -> string) (r : bill) :
  field (App.row_object to_char r) "billfrom" = App.json_null JStr (billfrom r).
Proof.
  unfold field, App.row_object. simpl.
  rewrite lookup_insert_ne by discriminate. now rewrite lookup_insert_eq.
Qed.

Lemma listed_rows (to_char : date -> string) (s : App.state) (st : store)
    (n : Z) (r : bill) :
  bills st !! n = Some r ->
  App.row_object to_char r ∈ App.bills (App.getAllBills to_char s st).
Proof.
  intros Hr. unfold App.getAllBills. simpl.
  apply list_elem_of_fmap_2.
  rewrite (merge_sort_Permutation billid_le). apply stored_rows. now exists n.
Qed.

End Search.

(** X19.  The search does not depend on the case of what is typed: the
    typed text and its lower-case form give the same result. *)
Theorem search_ignores_case_of_input (T : text_io) (text : string) (s : App.state) :
  App.handleSearch T (App.toLowerCase text) s = App.handleSearch T text s.
Proof. unfold App.handleSearch. now rewrite toLowerCase_twice. Qed.

(** X20.  An empty search text shows the whole list again, whatever was
    filtered before, provided every listed bill has a billfrom text. *)
Theorem empty_search_shows_all (T : text_io) (s : App.state) :
  (forall b, b ∈ App.bills s -> exists t, field b "billfrom" = JStr t) ->
  App.handleSearch T "" s = Some (App.setFilteredBills (App.bills s) s).
Proof.
  intros Hfrom. unfold App.handleSearch. simpl.
  rewrite filter_bills_keeps_all; [reflexivity | ].
  intros b Hb. destruct (Hfrom b Hb) as (t & Ht).
  unfold App.search_matches. rewrite Ht. simpl.
  now rewrite includes_empty.
Qed.

Lemma empty_search_shows_all_witness :
  App.handleSearch Sample.io ""
    (App.setFilteredBills [] (App.getAllBills sample_to_char App.initial one_bill))
  = Some (App.getAllBills sample_to_char App.initial one_bill).
Proof.
  rewrite (empty_search_shows_all Sample.io); [reflexivity | ].
  intros b Hb. vm_compute in Hb.
  apply list_elem_of_singleton in Hb as ->. eexists. vm_compute. reflexivity.
Defined.

(** X21.  A bill stored with a NULL billfrom breaks the search: once the
    list has been fetched, every search throws, whatever is typed. *)
Theorem search_throws_on_null_billfrom (T : text_io) (to_char : date -> string)
    (text : string) (s : App.state) (st : store) (n : Z) (r : bill) :
  bills st !! n = Some r ->
  billfrom r = None ->
  App.handleSearch T text (App.getAllBills to_char s st) = None.
Proof.
  intros Hr Hnull. unfold App.handleSearch.
  rewrite (filter_bills_throws _ _ (App.row_object to_char r)); [reflexivity | | ].
  - now apply (listed_rows to_char s st n).
  - unfold App.search_matches. rewrite row_object_billfrom, Hnull. reflexivity.
Qed.

Lemma search_throws_on_null_billfrom_witness :
  bills (snd (updatebill Sample.io "1" full_payment one_bill)) !! 1
  = Some (mkBill 1 None None (Some amount_56_15) None (Some true) (Some true)
            (Some amount_56_15) (Some (mkDate 2025 8 12)) (Some "Visa"))
  /\ App.handleSearch Sample.io "visa"
       (App.getAllBills sample_to_char App.initial
          (snd (updatebill Sample.io "1" full_payment one_bill)))
     = None.
Proof.
  assert (H : bills (snd (updatebill Sample.io "1" full_payment one_bill)) !! 1
    = Some (mkBill 1 None None (Some amount_56_15) None (Some true) (Some true)
              (Some amount_56_15) (Some (mkDate 2025 8 12)) (Some "Visa")))
    by (vm_compute; reflexivity).
  split; [exact H | ].
  exact (search_throws_on_null_billfrom Sample.io sample_to_char "visa" App.initial
           _ 1 _ H eq_refl).
Defined.

(** A bill added the README's way has no isPaid: a search that none of its
    first four texts answers throws, a search that one of them answers does
    not. *)
Example search_after_four_field_add :
  App.handleSearch Sample.io "visa"
    (App.getAllBills sample_to_char App.initial
       (snd (addbill Sample.io four_field_bill empty_store)))
  = None
  /\ App.filteredBills <$>
       App.handleSearch Sample.io "WATER"
         (App.getAllBills sample_to_char App.initial
            (snd (addbill Sample.io four_field_bill empty_store)))
     = Some (App.bills
               (App.getAllBills sample_to_char App.initial
                  (snd (addbill Sample.io four_field_bill empty_store)))).
Proof. split; vm_compute; reflexivity. Qed.

(** ** The pay dialog, end to end *)

Section PayDialog.
Variable T : text_io.
Variable to_char : date -> string.

Lemma row_object_billid (r : bill) :
  field (App.row_object to_char r) "billid" = JNum (JS.of_Z (billid r)).
Proof. unfold field, App.row_object. simpl. now rewrite lookup_insert_eq. Qed.

Lemma row_object_amountDue (r : bill) :
  field (App.row_object to_char r) "amountDue"
  = App.json_null App.json_number (amountDue r).
Proof.
  unfold field, App.row_object. simpl.
  rewrite !lookup_insert_ne by discriminate. now rewrite lookup_insert_eq.
Qed.

Lemma typed_pay_form_fields (r : bill) (paid day payer : string) (s : App.state) :
  let o := App.billData (typed_pay_form to_char r paid day payer s) in
  field o "amountPaid" = JStr paid
  /\ field o "datePaid" = JStr day
  /\ field o "paidBy" = JStr payer
  /\ field o "amountDue" = App.json_null App.json_number (amountDue r)
  /\ field o "billid" = JNum (JS.of_Z (billid r)).
Proof.
  cbv zeta. unfold typed_pay_form, App.handleChange, App.handleUpdate.
  cbn [App.billData App.setBillData App.setIsPayModalOpen].
  repeat split.
Qed.

(** A positive finite amount crosses JSON unchanged. *)
Lemma json_number_positive (x : float) :
  Client.is_finite x = true -> PrimFloat.ltb JS.zero x = true ->
  App.json_number x = JNum x /\ Client.json_value (JNum x) = Some (JNum x).
Proof.
  intros Hfin Hpos. unfold App.json_number, Client.json_value.
  now rewrite Hfin, (gt_zero_not_eq_zero x Hpos).
Qed.

End PayDialog.

(** X22.  Paying a listed bill through the pay dialog: with a positive
    finite amount due in the row, three non-empty inputs that the columns
    accept (an amount and a date the columns read, a payer without the code
    unit 0) and a typed amount above zero, the payment is recorded on that
    bill.  "paidInFull" is the comparison of the typed amount, read as a
    Number, with the amount due that the list showed; the dialog closes
    without a message. *)
Theorem pay_dialog_records_payment (T : text_io) (to_char : date -> string)
    (s : App.state) (st : store) (n : Z) (r : bill) (due : float)
    (paid day payer : string) (amount : float) (paid_day : date) :
  bills st !! n = Some r ->
  amountDue r = Some due ->
  Client.is_finite due = true ->
  PrimFloat.ltb JS.zero due = true ->
  float_to_int4 (JS.parseInt (NumberToString T (JS.of_Z (billid r)))) = Some n ->
  paid <> "" -> day <> "" -> payer <> "" ->
  has_nul payer = false ->
  PrimFloat.ltb JS.zero (StringToNumber T paid) = true ->
  float8in T paid = Some amount ->
  date_in T day = Some paid_day ->
  exists s',
    App.handlePaySubmit T to_char (typed_pay_form to_char r paid day payer s) st
    = (s',
       mkStore
         (<[n := mkBill (billid r) (billfrom r) (billType r) (amountDue r) (dueDate r)
                  (Some true)
                  (Some (PrimFloat.eqb (StringToNumber T paid) due))
                  (Some amount) (Some paid_day) (Some payer)]> (bills st))
         (billid_seq st),
       Some (Text 200 PaymentUpdated
               (JS.parseInt (NumberToString T (JS.of_Z (billid r))))))
    /\ App.isPayModalOpen s' = false
    /\ App.errorMsg s' = ""
    /\ App.billData s' = Client.blank_billData.
Proof.
  intros Hr Hdue Hfin Hduepos Hid Hpaid Hday Hpayer Hnul Hpos Hamount Hdate.
  pose proof (typed_pay_form_fields to_char r paid day payer s) as F. cbv zeta in F.
  destruct F as (F1 & F2 & F3 & F4 & F5).
  destruct (json_number_positive due Hfin Hduepos) as [Hjson Hwire].
  rewrite Hdue in F4. cbn [App.json_null] in F4. rewrite Hjson in F4.
  unfold App.handlePaySubmit.
  rewrite F1, F2, F3, F5. rewrite !truthy_text by assumption.
  cbn -[typed_pay_form paybill Client.json_body field App.handlePayClose].
  set (body := Client.json_body (App.billData (typed_pay_form to_char r paid day payer s))).
  assert (B1 : field body "amountPaid" = JStr paid)
    by (unfold body; now rewrite field_json_body, F1).
  assert (B2 : field body "datePaid" = JStr day)
    by (unfold body; now rewrite field_json_body, F2).
  assert (B3 : field body "paidBy" = JStr payer)
    by (unfold body; now rewrite field_json_body, F3).
  assert (B4 : field body "amountDue" = JNum due)
    by (unfold body; now rewrite field_json_body, F4, Hwire).
  rewrite (paybill_positive_payment T _ n body st r
             (Some amount) (Some paid_day) (Some payer) Hid Hr).
  - rewrite B1, B4. simpl. eexists. repeat split.
  - now rewrite B1.
  - rewrite B1. unfold float8_column, column_in. simpl. now rewrite Hamount.
  - rewrite B2. unfold date_column, column_in. simpl. now rewrite Hdate.
  - rewrite B3. unfold varchar_column, column_in, varchar_in. simpl.
    now rewrite Hnul.
Qed.

Lemma pay_dialog_records_payment_witness :
  exists s',
    App.handlePaySubmit Sample.io sample_to_char
      (typed_pay_form sample_to_char
         (unpaid_bill 1 "Primary Care Doctor" "Medical" 56%float (mkDate 2025 9 15))
         "56" "2025-08-12" "Visa" App.initial)
      (mkStore
         {[1 := unpaid_bill 1 "Primary Care Doctor" "Medical" 56%float
                  (mkDate 2025 9 15)]} 2)
    = (s',
       mkStore
         {[1 := mkBill 1 (Some "Primary Care Doctor") (Some "Medical")
                  (Some 56%float) (Some (mkDate 2025 9 15)) (Some true) (Some true)
                  (Some 56%float) (Some (mkDate 2025 8 12)) (Some "Visa")]}
         2,
       Some (Text 200 PaymentUpdated 1%float))
    /\ App.isPayModalOpen s' = false
    /\ App.errorMsg s' = "".
Proof.
  destruct (pay_dialog_records_payment Sample.io sample_to_char App.initial
              (mkStore
                 {[1 := unpaid_bill 1 "Primary Care Doctor" "Medical" 56%float
                          (mkDate 2025 9 15)]} 2)
              1
              (unpaid_bill 1 "Primary Care Doctor" "Medical" 56%float
                 (mkDate 2025 9 15))
              56%float "56" "2025-08-12" "Visa" 56%float (mkDate 2025 8 12))
    as (s' & Hrun & Hclosed & Hmsg & _);
    try first [discriminate | vm_compute; reflexivity].
  exists s'. split; [ | now split].
  rewrite Hrun. vm_compute. reflexivity.
Defined.

(** ** PATCH /updatebill replaces the whole row *)

(** X23.  An accepted update of a stored bill rewrites all seven editable
    columns from the body, each read by its column type, and sets both flags
    from the SQL text chosen; only the billid stays.  A member that the body
    leaves out is therefore stored as NULL, not kept. *)
Theorem updatebill_replaces_row (T : text_io) (billId : string) (n : Z)
    (body : object) (st : store) (r : bill) :
  float_to_int4 (JS.parseInt billId) = Some n ->
  bills st !! n = Some r ->
  reports_success (fst (updatebill T billId body st)) = true ->
  exists r',
    bills (snd (updatebill T billId body st)) !! n = Some r'
    /\ billid r' = billid r
    /\ varchar_column T "billfrom" (field body "billfrom") = inr (billfrom r')
    /\ varchar_column T "billType" (field body "billType") = inr (billType r')
    /\ float8_column T "amountDue" (field body "amountDue") = inr (amountDue r')
    /\ date_column T "dueDate" (field body "dueDate") = inr (dueDate r')
    /\ float8_column T "amountPaid" (field body "amountPaid") = inr (amountPaid r')
    /\ date_column T "datePaid" (field body "datePaid") = inr (datePaid r')
    /\ varchar_column T "paidBy" (field body "paidBy") = inr (paidBy r')
    /\ (field body "billfrom" = JUndefined -> billfrom r' = None)
    /\ (field body "billType" = JUndefined -> billType r' = None)
    /\ (field body "amountDue" = JUndefined -> amountDue r' = None)
    /\ (field body "dueDate" = JUndefined -> dueDate r' = None)
    /\ (field body "amountPaid" = JUndefined -> amountPaid r' = None)
    /\ (field body "datePaid" = JUndefined -> datePaid r' = None)
    /\ (field body "paidBy" = JUndefined -> paidBy r' = None).
Proof.
  intros Hid Hr. unfold updatebill.
  destruct (updatebill_sql_cases T (field body "amountPaid") (field body "amountDue"))
    as (a & b & -> & _).
  unfold pool_query, update_all.
  destruct (varchar_column T "billfrom" _) as [? | c1] eqn:E1; simpl; [discriminate | ].
  destruct (varchar_column T "billType" _) as [? | c2] eqn:E2; simpl; [discriminate | ].
  destruct (float8_column T "amountDue" _) as [? | c3] eqn:E3; simpl; [discriminate | ].
  destruct (date_column T "dueDate" _) as [? | c4] eqn:E4; simpl; [discriminate | ].
  destruct (float8_column T "amountPaid" _) as [? | c5] eqn:E5; simpl; [discriminate | ].
  destruct (date_column T "datePaid" _) as [? | c6] eqn:E6; simpl; [discriminate | ].
  destruct (varchar_column T "paidBy" _) as [? | c7] eqn:E7; simpl; [discriminate | ].
  rewrite Hid. simpl. intros _.
  rewrite lookup_alter_eq, Hr. simpl. eexists. split; [reflexivity | ]. simpl.
  repeat split; intros Habsent; rewrite Habsent in *;
    first [ now injection E1 | now injection E2 | now injection E3 | now injection E4
          | now injection E5 | now injection E6 | now injection E7 ].
Qed.

Lemma updatebill_replaces_row_witness :
  exists r',
    bills (snd (updatebill Sample.io "1" full_payment one_bill)) !! 1 = Some r'
    /\ billid r' = 1
    /\ billfrom r' = None
    /\ amountPaid r' = Some amount_56_15.
Proof.
  destruct (updatebill_replaces_row Sample.io "1" 1 full_payment one_bill
              (mkBill 1 (Some "Primary Care Doctor") (Some "Medical")
                 (Some amount_56_15) (Some (mkDate 2025 9 15)) (Some false)
                 (Some false) (Some JS.zero) (Some sentinel_date) (Some "")))
    as (r' & Hrow & Hkey & _ & _ & _ & _ & Hpaid & _ & _ & Hfrom & _);
    try (vm_compute; reflexivity).
  exists r'. repeat split; [exact Hrow | exact Hkey | | ].
  - apply Hfrom. vm_compute. reflexivity.
  - vm_compute in Hpaid. now injection Hpaid.
Defined.
